(** * Oracle-to-Parquet extraction pipeline: [run_all.py]

    A shallow embedding of [pull_oracle_n_upload_to_fabric/run_all.py].

    - Python [str] values are [string]s; [str.upper] acts on the ASCII
      letters (identifiers of the Oracle catalog).
    - Python [int]s are [Z], printed in decimal as an f-string does.
    - [None] is [option]'s [None]; truthiness of an optional string is
      [truthy].
    - The database driver, pandas, the file system and the OneLake client are
      external collaborators: their answers are fields of a [world] record,
      each a function of the history of calls made so far.
    - Exceptions are values of [exn]; a computation returns [Return v] or
      [Raise e] together with the events it performed. *)

From Stdlib Require Import String Ascii List ZArith Lia Bool DecimalString.
Import ListNotations.
Open Scope string_scope.

Set Implicit Arguments.

(** ** Strings as Python prints them *)

Module PyStr.

Definition nl : string := String (ascii_of_nat 10) EmptyString.
Definition dq : string := String (ascii_of_nat 34) EmptyString.
Definition sq : string := String (ascii_of_nat 39) EmptyString.

(** [f"{n}"] for an [int]. *)
Definition str_of_Z (z : Z) : string := NilZero.string_of_int (Z.to_int z).

(** [str.upper] on one character (ASCII letters). *)
Definition upper_ascii (c : ascii) : ascii :=
  let n := nat_of_ascii c in
  if (97 <=? n)%nat && (n <=? 122)%nat then ascii_of_nat (n - 32) else c.

(** [s.upper()] *)
Fixpoint upper (s : string) : string :=
  match s with
  | EmptyString => EmptyString
  | String c r => String (upper_ascii c) (upper r)
  end.

(** [ch in s] for a one-character needle. *)
Fixpoint contains_char (ch : ascii) (s : string) : bool :=
  match s with
  | EmptyString => false
  | String c r => if Ascii.eqb c ch then true else contains_char ch r
  end.

(** [s.split(ch, 1)]: at most one split, at the first occurrence. *)
Fixpoint split1 (ch : ascii) (s : string) : list string :=
  match s with
  | EmptyString => [EmptyString]
  | String c r =>
      if Ascii.eqb c ch then [EmptyString; r]
      else match split1 ch r with
           | x :: rest => String c x :: rest
           | [] => [String c EmptyString]
           end
  end.

(** [sep.join(parts)] *)
Definition join (sep : string) (parts : list string) : string :=
  String.concat sep parts.

(** Truthiness of a value that is [None] or a [str]. *)
Definition truthy (v : option string) : bool :=
  match v with
  | Some (String _ _) => true
  | _ => false
  end.

(** [all([...])] over such values. *)
Definition all (vs : list (option string)) : bool := forallb truthy vs.

(** [os.path.join(a, b)] (POSIX). *)
Fixpoint ends_with_slash (s : string) : bool :=
  match s with
  | EmptyString => false
  | String c EmptyString => Ascii.eqb c "/"
  | String _ r => ends_with_slash r
  end.

Definition os_path_join (a b : string) : string :=
  match b with
  | String "/" _ => b
  | _ => match a with
         | EmptyString => b
         | _ => if ends_with_slash a then a ++ b else a ++ "/" ++ b
         end
  end.

End PyStr.
Import PyStr.

(** ** The query builder *)

(** One row of [ALL_TAB_COLUMNS]: [(COLUMN_NAME, DATA_TYPE)]. *)
Definition column := (string * string)%type.

(** [f'"{c}"'] *)
Definition quoted (c : string) : string := dq ++ c ++ dq.

(** [f'CAST("{c}" AS NUMBER({precision},{scale})) AS "{c}"'] *)
Definition cast_clause (precision scale : Z) (c : string) : string :=
  "CAST(" ++ quoted c ++ " AS NUMBER(" ++ str_of_Z precision ++ ","
          ++ str_of_Z scale ++ ")) AS " ++ quoted c.

(** The element of the list comprehension of [generate_select_query]. *)
Definition select_clause (precision scale : Z) (col : column) : string :=
  let '(c, dt) := col in
  if String.eqb dt "NUMBER" then cast_clause precision scale c else quoted c.

Definition select_clauses (precision scale : Z) (column_metadata : list column)
  : list string :=
  map (select_clause precision scale) column_metadata.

(** [",\n  "] *)
Definition clause_sep : string := "," ++ nl ++ "  ".

(** The final f-string of [generate_select_query]. *)
Definition select_text (owner_name table_name_only : string)
  (clauses : list string) : string :=
  "SELECT" ++ nl ++ "  " ++ join clause_sep clauses ++ nl ++ "FROM "
           ++ quoted (upper owner_name) ++ "." ++ quoted (upper table_name_only).

Definition generate_select_query (owner_name table_name_only : string)
  (column_metadata : list column) (precision scale : Z) : option string :=
  match column_metadata with
  | [] => None
  | _ =>
      let clauses := select_clauses precision scale column_metadata in
      match clauses with
      | [] => None
      | _ => Some (select_text owner_name table_name_only clauses)
      end
  end.

(** A clause [cl] references column [c]: it is the plain quoted column or the
    cast of that column aliased back to its own name. *)
Definition references (precision scale : Z) (cl c : string) : Prop :=
  cl = quoted c \/ cl = cast_clause precision scale c.

(** The numeric clause as the specification words it, with the keyword
    [NUMERIC]. *)
Definition spec_numeric_clause (precision scale : Z) (c : string) : string :=
  "CAST(" ++ quoted c ++ " AS NUMERIC(" ++ str_of_Z precision ++ ","
          ++ str_of_Z scale ++ ")) AS " ++ quoted c.

(** The query of the specification's end-to-end scenario, on one line. *)
Definition spec_sales_orders_query : string :=
  "SELECT " ++ quoted "ID" ++ ", CAST(" ++ quoted "AMOUNT"
            ++ " AS NUMBER(22,0)) AS " ++ quoted "AMOUNT" ++ ", "
            ++ quoted "STATUS" ++ " FROM " ++ quoted "SALES" ++ "."
            ++ quoted "ORDERS".

(** ** Exceptions, events and the outside world *)

Inductive exn : Type :=
| OracleDatabaseError (msg : string)   (* oracledb.DatabaseError *)
| PandasDatabaseError (msg : string)   (* pd.errors.DatabaseError *)
| OtherException (msg : string)        (* any other subclass of Exception *)
| SystemExit.                          (* raised by exit(); not an Exception *)

(** [f"{e}"] *)
Definition exn_str (e : exn) : string :=
  match e with
  | OracleDatabaseError m | PandasDatabaseError m | OtherException m => m
  | SystemExit => ""
  end.

(** [isinstance(e, Exception)] *)
Definition is_Exception (e : exn) : bool :=
  match e with SystemExit => false | _ => true end.

Inductive outcome (A : Type) : Type :=
| Return (a : A)
| Raise (e : exn).
Arguments Return {A} a.
Arguments Raise {A} e.

(** [f"{v}"] for a value that is [None] or a [str]. *)
Definition fmt (v : option string) : string :=
  match v with Some s => s | None => "None" end.

(** What the program does to the outside, in the order it does it. *)
Inductive event : Type :=
| Print (line : string)
| YamlSafeLoad (config_path : string)
| InitOracleClient (lib_dir : option string)
| Connect (user password dsn : option string)
| Execute (sql : string) (binds : list (string * string))
| ReadSqlQuery (sql : string)
| PathExists (path : string)
| MakeDirs (path : string)
| ToParquet (path : string)
| AzureImport
| OneLakeUpload (account_url : string)
    (tenant_id client_id client_secret workspace_id : option string)
    (data_path : string) (dest_file_name local_file_path : option string)
| CloseConnection.

Definition history := list event.

(** One entry of [tables_to_process]: a dict, in insertion order; a key that
    is absent or null reads as [None]. *)
Definition table_config := list (string * option string).

(** [d.get(key)] *)
Fixpoint dict_get (d : table_config) (key : string) : option string :=
  match d with
  | [] => None
  | (k, v) :: r => if String.eqb k key then v else dict_get r key
  end.

(** [repr] of such a dict (strings without characters that need escaping). *)
Definition repr_value (v : option string) : string :=
  match v with Some s => sq ++ s ++ sq | None => "None" end.

Definition repr_dict (d : table_config) : string :=
  "{" ++ join ", " (map (fun kv => sq ++ fst kv ++ sq ++ ": " ++ repr_value (snd kv)) d)
      ++ "}".

(** The parsed [config.yaml]; [None] is a key that is absent. The three
    sections are mappings or absent: a document in which a section is null
    makes the assignments of lines 51-65 raise, and is not a value of this
    type. *)
Record app_config : Type := {
  thick_mode_lib_dir : option string;
  base_local_output_directory : option string;
  tables_to_process : option (list table_config);
  cast_number_to_precision : option Z;
  cast_number_to_scale : option Z;
  workspace_id : option string;
  lakehouse_id : option string
}.

(** What [open] and [yaml.safe_load] do in [load_yaml_config]; a document that
    is empty loads as a falsy value, [YamlLoaded None]. *)
Inductive yaml_load : Type :=
| YamlFileNotFound
| YamlError (msg : string)
| YamlOtherError (msg : string)
| YamlLoaded (doc : option app_config).

(** The external collaborators. Every answer may depend on what happened
    before the call. *)
Record world : Type := {
  safe_load : string -> yaml_load;
  init_oracle_client : option string -> outcome unit;
  connect : history -> option string -> option string -> option string -> outcome unit;
  current_schema : history -> outcome (option string);
  all_tab_columns : history -> string -> string -> outcome (list column);
  read_sql_query : history -> string -> outcome nat;
  path_exists : history -> string -> bool;
  makedirs : history -> string -> outcome unit;
  to_parquet : history -> string -> outcome unit;
  azure_import : history -> outcome unit;
  onelake_upload : history -> string -> option string -> option string ->
                   option string -> option string -> string -> option string ->
                   option string -> outcome unit;
  close : history -> outcome unit
}.

(** ** Computations: events and exceptions *)

Definition M (A : Type) : Type := history -> outcome A * list event.

Definition ret {A} (a : A) : M A := fun _ => (Return a, []).

Definition bind {A B} (m : M A) (f : A -> M B) : M B :=
  fun h =>
    match m h with
    | (Return a, es) => let '(r, es') := f a (h ++ es)%list in (r, (es ++ es')%list)
    | (Raise e, es) => (Raise e, es)
    end.

Definition raise {A} (e : exn) : M A := fun _ => (Raise e, []).

(** A call to a collaborator: the event is recorded, the answer is the world's. *)
Definition call {A} (ev : event) (answer : history -> outcome A) : M A :=
  fun h => (answer h, [ev]).

Definition print (line : string) : M unit := call (Print line) (fun _ => Return tt).

(** [exit()] *)
Definition exit {A} : M A := raise SystemExit.

(** [try: m  except ...: handler]; [handler e = None] when no clause matches. *)
Definition try_except {A} (m : M A) (handler : exn -> option (M A)) : M A :=
  fun h =>
    match m h with
    | (Raise e, es) =>
        match handler e with
        | Some k => let '(r, es') := k (h ++ es)%list in (r, (es ++ es')%list)
        | None => (Raise e, es)
        end
    | r => r
    end.

(** [try: m  finally: fin] *)
Definition try_finally {A} (m : M A) (fin : M unit) : M A :=
  fun h =>
    let '(r, es) := m h in
    let '(rf, es') := fin (h ++ es)%list in
    (match rf with Raise e => Raise e | Return _ => r end, (es ++ es')%list).

Declare Scope py_scope.
Delimit Scope py_scope with py.
Notation "x <- m ;; k" := (bind m (fun x => k))
  (at level 61, m at next level, right associativity) : py_scope.
Notation "m ;; k" := (bind m (fun _ => k))
  (at level 61, right associativity) : py_scope.
Open Scope py_scope.

(** [for x in xs: body(x)] *)
Fixpoint for_each {A} (body : A -> M unit) (xs : list A) : M unit :=
  match xs with
  | [] => ret tt
  | x :: r => body x ;; for_each body r
  end.

(** ** The program *)

Section Program.

Variable w : world.

(** [get_oracle_connection]; the connection handle is [tt]. *)
Definition get_oracle_connection (user password dsn : option string)
  : M (option unit) :=
  try_except
    (call (Connect user password dsn) (fun h => connect w h user password dsn) ;;
     print ("Successfully connected to Oracle as user '" ++ fmt user
            ++ "' with DSN '" ++ fmt dsn ++ "'.") ;;
     ret (Some tt))
    (fun e => match e with
              | OracleDatabaseError msg =>
                  Some (print ("Error connecting to Oracle: " ++ msg) ;; ret None)
              | _ => None
              end).

Definition metadata_query : string :=
  "SELECT COLUMN_NAME, DATA_TYPE FROM ALL_TAB_COLUMNS WHERE OWNER = :owner_name AND TABLE_NAME = :table_name_only ORDER BY COLUMN_ID".

Definition get_table_column_metadata (owner_name table_name_only : string)
  : M (list column) :=
  let query := metadata_query in
  try_except
    (call (Execute query [("owner_name", upper owner_name);
                          ("table_name_only", upper table_name_only)])
          (fun h => all_tab_columns w h (upper owner_name) (upper table_name_only)))
    (fun e => match e with
              | OracleDatabaseError msg =>
                  Some (print ("Error fetching metadata for " ++ owner_name ++ "."
                               ++ table_name_only ++ ": " ++ msg) ;;
                        ret [])
              | _ => None
              end).

Definition schema_query : string :=
  "SELECT SYS_CONTEXT('USERENV', 'CURRENT_SCHEMA') FROM DUAL".

(** Lines 217-239 of [process_table]: run the query, write the file. *)
Definition extract_to_parquet (oracle_table_full_name local_output_dir
  local_file_name_cfg select_query : string) : M (option string) :=
  try_except
    (print ("  Executing query and fetching data for " ++ oracle_table_full_name ++ "...") ;;
     df <- call (ReadSqlQuery select_query) (fun h => read_sql_query w h select_query) ;;
     print ("  Successfully fetched " ++ str_of_Z (Z.of_nat df) ++ " rows for "
            ++ oracle_table_full_name ++ ".") ;;
     dir_exists <- call (PathExists local_output_dir)
                        (fun h => Return (path_exists w h local_output_dir)) ;;
     (if negb dir_exists then
        call (MakeDirs local_output_dir) (fun h => makedirs w h local_output_dir) ;;
        print ("  Created local output directory: " ++ local_output_dir)
      else ret tt) ;;
     let local_parquet_file_path := os_path_join local_output_dir local_file_name_cfg in
     call (ToParquet local_parquet_file_path)
          (fun h => to_parquet w h local_parquet_file_path) ;;
     print ("  Successfully saved data for " ++ oracle_table_full_name
            ++ " to local file: " ++ local_parquet_file_path) ;;
     ret (Some local_parquet_file_path))
    (fun e => match e with
              | OracleDatabaseError msg =>
                  Some (print ("  Oracle Error processing " ++ oracle_table_full_name
                               ++ ": " ++ msg) ;; ret None)
              | PandasDatabaseError msg =>
                  Some (print ("  Pandas Database Error for " ++ oracle_table_full_name
                               ++ ": " ++ msg) ;; ret None)
              | OtherException msg =>
                  Some (print ("  An unexpected error occurred while processing "
                               ++ oracle_table_full_name ++ ": " ++ msg) ;; ret None)
              | SystemExit => None
              end).

(** Lines 187-201 of [process_table]: [Some (owner_name, table_name_only)], or
    [None] where the source returns [None] early. *)
Definition resolve_owner (oracle_table_full_name : string)
  : M (option (string * string)) :=
  if contains_char "." oracle_table_full_name then
    match split1 "." oracle_table_full_name with
    | [owner_name; table_name_only] => ret (Some (owner_name, table_name_only))
    | _ => raise (OtherException "ValueError: not enough values to unpack")
    end
  else
    try_except
      (fetched_owner <- call (Execute schema_query []) (current_schema w) ;;
       match fetched_owner with
       | Some owner_name => ret (Some (owner_name, oracle_table_full_name))
       | None =>
           print ("Could not determine current schema for table "
                  ++ oracle_table_full_name ++ ". Skipping.") ;;
           ret None
       end)
      (fun e => match e with
                | OracleDatabaseError msg =>
                    Some (print ("Error getting current schema for "
                                 ++ oracle_table_full_name ++ ": " ++ msg ++ ". Skipping.") ;;
                          ret None)
                | _ => None
                end).

(** Lines 207-239 of [process_table]: from the test of [column_metadata] on. *)
Definition process_columns (oracle_table_full_name local_output_dir
  local_file_name_cfg owner_name_std table_name_only_std : string)
  (column_metadata : list column) (cast_prec cast_scl : Z) : M (option string) :=
  match column_metadata with
  | [] =>
      print ("Could not retrieve metadata for " ++ owner_name_std ++ "."
             ++ table_name_only_std ++ ". Skipping.") ;;
      ret None
  | _ =>
      print ("  Column metadata retrieved for " ++ oracle_table_full_name ++ ".") ;;
      match generate_select_query owner_name_std table_name_only_std
              column_metadata cast_prec cast_scl with
      | None =>
          print ("Could not generate SELECT query for " ++ owner_name_std ++ "."
                 ++ table_name_only_std ++ ". Skipping.") ;;
          ret None
      | Some select_query =>
          extract_to_parquet oracle_table_full_name local_output_dir
            local_file_name_cfg select_query
      end
  end.

Definition process_table (oracle_table_full_name local_output_dir
  local_file_name_cfg : string) (cast_prec cast_scl : Z) : M (option string) :=
  print (nl ++ "Processing Oracle table: " ++ oracle_table_full_name ++ "...") ;;
  resolved <- resolve_owner oracle_table_full_name ;;
  match resolved with
  | None => ret None
  | Some (owner_name, table_name_only) =>
      let owner_name_std := upper owner_name in
      let table_name_only_std := upper table_name_only in
      column_metadata <- get_table_column_metadata owner_name_std table_name_only_std ;;
      process_columns oracle_table_full_name local_output_dir local_file_name_cfg
        owner_name_std table_name_only_std column_metadata cast_prec cast_scl
  end.

Definition upload_file_to_datalake (tenant_id client_id client_secret
  workspace_id lakehouse_id local_file_path dest_folder_path dest_file_name
  : option string) : M unit :=
  call AzureImport (azure_import w) ;;
  let account_name := "onelake" in
  let full_dest_folder_path := "Files/" ++ fmt dest_folder_path in
  let data_path := fmt lakehouse_id ++ "/" ++ full_dest_folder_path in
  let account_url := "https://" ++ account_name ++ ".dfs.fabric.microsoft.com" in
  try_except
    (call (OneLakeUpload account_url tenant_id client_id client_secret workspace_id
             data_path dest_file_name local_file_path)
          (fun h => onelake_upload w h account_url tenant_id client_id client_secret
                      workspace_id data_path dest_file_name local_file_path) ;;
     print ("File '" ++ fmt dest_file_name ++ "' uploaded successfully to '"
            ++ data_path ++ "'"))
    (fun e => if is_Exception e then
                Some (print ("  ERROR uploading file '" ++ fmt local_file_path
                             ++ "' to Lakehouse: " ++ exn_str e) ;;
                      print ("  Attempted Lakehouse path: " ++ full_dest_folder_path
                             ++ "/" ++ fmt dest_file_name))
              else None).

(** The module-level names [main] reads. *)
Record globals : Type := {
  DB_USER : option string;
  DB_PASSWORD : option string;
  DB_DSN : option string;
  FABRIC_TENANT_ID : option string;
  FABRIC_CLIENT_ID : option string;
  FABRIC_CLIENT_SECRET : option string;
  ORACLE_CLIENT_LIB_TO_USE : option string;
  BASE_LOCAL_OUTPUT_DIR : string;
  TABLES_CONFIG_LIST : list table_config;
  CAST_PRECISION : Z;
  CAST_SCALE : Z;
  FABRIC_WORKSPACE_ID : option string;
  FABRIC_LAKEHOUSE_ID : option string
}.

Definition FABRIC_CONFIG_COMPLETE (g : globals) : bool :=
  all [FABRIC_TENANT_ID g; FABRIC_CLIENT_ID g; FABRIC_CLIENT_SECRET g;
       FABRIC_WORKSPACE_ID g; FABRIC_LAKEHOUSE_ID g].

Variable g : globals.

(** Lines 275-290 of [main]: what follows [process_table] in the loop. *)
Definition upload_step (oracle_table_name local_file_name lakehouse_folder
  lakehouse_file local_parquet_path : option string) : M unit :=
  if truthy local_parquet_path && FABRIC_CONFIG_COMPLETE g then
    print ("  Attempting to upload '" ++ fmt local_file_name
           ++ "' to Lakehouse folder '" ++ fmt lakehouse_folder ++ "' as '"
           ++ fmt lakehouse_file ++ "'...") ;;
    upload_file_to_datalake (FABRIC_TENANT_ID g) (FABRIC_CLIENT_ID g)
      (FABRIC_CLIENT_SECRET g) (FABRIC_WORKSPACE_ID g) (FABRIC_LAKEHOUSE_ID g)
      local_parquet_path lakehouse_folder lakehouse_file
  else if truthy local_parquet_path && negb (FABRIC_CONFIG_COMPLETE g) then
    print ("  Skipping upload for '" ++ fmt local_file_name
           ++ "' due to incomplete Fabric configurations.")
  else
    print ("  Skipping upload for '" ++ fmt oracle_table_name
           ++ "' as local Parquet file was not created.").

(** Lines 256-290 of [main]: the body of the loop over [TABLES_CONFIG_LIST].
    After the [all] test the names are strings; the other branch of the match
    is the [TypeError] Python raises on [None]. *)
Definition table_iteration (table_config : table_config) : M unit :=
  let oracle_table_name := dict_get table_config "oracle_table_name" in
  let local_file_name := dict_get table_config "local_file_name" in
  let lakehouse_folder := dict_get table_config "lakehouse_dest_folder_path" in
  let lakehouse_file := dict_get table_config "lakehouse_dest_file_name" in
  if negb (all [oracle_table_name; local_file_name; lakehouse_folder; lakehouse_file]) then
    print ("WARNING: Skipping table configuration due to missing fields: "
           ++ repr_dict table_config)
  else
    match oracle_table_name, local_file_name with
    | Some table_name, Some file_name =>
        local_parquet_path <- process_table table_name (BASE_LOCAL_OUTPUT_DIR g)
                                file_name (CAST_PRECISION g) (CAST_SCALE g) ;;
        upload_step oracle_table_name local_file_name lakehouse_folder
          lakehouse_file local_parquet_path
    | _, _ => raise (OtherException "TypeError")
    end.

Definition main : M unit :=
  print "--- Starting Oracle to Parquet Script with Lakehouse Upload ---" ;;
  conn <- get_oracle_connection (DB_USER g) (DB_PASSWORD g) (DB_DSN g) ;;
  match conn with
  | Some _ =>
      try_finally
        (match TABLES_CONFIG_LIST g with
         | [] => print "No tables to process. Check 'tables_to_process' in config.json."
         | tables =>
             print ("Base local output directory: " ++ BASE_LOCAL_OUTPUT_DIR g) ;;
             print ("Casting NUMBER types to: NUMBER(" ++ str_of_Z (CAST_PRECISION g)
                    ++ "," ++ str_of_Z (CAST_SCALE g) ++ ")") ;;
             for_each table_iteration tables
         end)
        (print (nl ++ "Closing Oracle connection.") ;;
         call CloseConnection (close w))
  | None => print "Could not establish Oracle connection. Exiting."
  end ;;
  print (nl ++ "--- Script Finished ---").

End Program.

(** ** Module level: configuration, validation, start of [main] *)

(** [os.getenv], after [load_dotenv()]. *)
Definition environ := string -> option string.

(** [d.get(key, default)] on a key that may be absent. *)
Definition get_default {A} (v : option A) (default : A) : A :=
  match v with Some a => a | None => default end.

Section Script.

Variable w : world.
Variable getenv : environ.

Definition load_yaml_config (config_path : string) : M (option app_config) :=
  loaded <- call (YamlSafeLoad config_path) (fun _ => Return (safe_load w config_path)) ;;
  match loaded with
  | YamlLoaded config =>
      print ("Configuration successfully loaded from '" ++ config_path ++ "'.") ;;
      ret config
  | YamlFileNotFound =>
      print ("ERROR: Configuration file '" ++ config_path
             ++ "' not found. Please create it.") ;;
      ret None
  | YamlError msg =>
      print ("ERROR: Could not decode YAML from '" ++ config_path
             ++ "'. Check for syntax errors: " ++ msg) ;;
      ret None
  | YamlOtherError msg =>
      print ("ERROR: An unexpected error occurred while loading YAML configuration: "
             ++ msg) ;;
      ret None
  end.

(** Lines 39-65: the module-level assignments. *)
Definition read_globals (APP_CONFIG : app_config) : globals :=
  let ORACLE_CLIENT_LIB_DIR_ENV := getenv "ORACLE_CLIENT_LIB_DIR" in
  let THICK_MODE_LIB_DIR_JSON := thick_mode_lib_dir APP_CONFIG in
  {| DB_USER := getenv "ORACLE_DB_USER";
     DB_PASSWORD := getenv "ORACLE_DB_PASSWORD";
     DB_DSN := getenv "ORACLE_DB_DSN";
     FABRIC_TENANT_ID := getenv "FABRIC_TENANT_ID";
     FABRIC_CLIENT_ID := getenv "FABRIC_CLIENT_ID";
     FABRIC_CLIENT_SECRET := getenv "FABRIC_CLIENT_SECRET";
     ORACLE_CLIENT_LIB_TO_USE :=
       if truthy ORACLE_CLIENT_LIB_DIR_ENV then ORACLE_CLIENT_LIB_DIR_ENV
       else THICK_MODE_LIB_DIR_JSON;
     BASE_LOCAL_OUTPUT_DIR :=
       get_default (base_local_output_directory APP_CONFIG) "parquet_output";
     TABLES_CONFIG_LIST := get_default (tables_to_process APP_CONFIG) [];
     CAST_PRECISION := get_default (cast_number_to_precision APP_CONFIG) 22%Z;
     CAST_SCALE := get_default (cast_number_to_scale APP_CONFIG) 0%Z;
     FABRIC_WORKSPACE_ID := workspace_id APP_CONFIG;
     FABRIC_LAKEHOUSE_ID := lakehouse_id APP_CONFIG |}.

(** Lines 68-79 *)
Definition initialize_oracle_client (g : globals) : M unit :=
  try_except
    ((if truthy (ORACLE_CLIENT_LIB_TO_USE g) then
        print ("Attempting to initialize Oracle Client from: "
               ++ fmt (ORACLE_CLIENT_LIB_TO_USE g)) ;;
        call (InitOracleClient (ORACLE_CLIENT_LIB_TO_USE g))
             (fun _ => init_oracle_client w (ORACLE_CLIENT_LIB_TO_USE g))
      else
        print "Attempting to initialize Oracle Client from system path (no specific lib_dir provided)." ;;
        call (InitOracleClient None) (fun _ => init_oracle_client w None)) ;;
     print "Successfully initialized Oracle Client in Thick Mode.")
    (fun e => if is_Exception e then
                Some (print ("CRITICAL ERROR: Failed to initialize Oracle Client for Thick Mode: "
                             ++ exn_str e) ;;
                      exit)
              else None).

(** Lines 81-92 *)
Definition validate_configuration (g : globals) : M unit :=
  (if negb (all [DB_USER g; DB_PASSWORD g; DB_DSN g]) then
     print "CRITICAL ERROR: Oracle credentials (ORACLE_DB_USER, ORACLE_DB_PASSWORD, ORACLE_DB_DSN) not found. Please set them in your .env file." ;;
     exit
   else ret tt) ;;
  (match TABLES_CONFIG_LIST g with
   | [] => print "WARNING: No tables specified in config.json under 'processing_settings.tables_to_process'."
   | _ => ret tt
   end) ;;
  (if negb (FABRIC_CONFIG_COMPLETE g) then
     print "WARNING: Fabric Lakehouse connection details are incomplete (check .env for FABRIC_TENANT_ID, FABRIC_CLIENT_ID, FABRIC_CLIENT_SECRET and config.json for fabric_lakehouse_settings). Files will not be uploaded."
   else ret tt).

(** The whole file, run as a script. *)
Definition run_all : M unit :=
  APP_CONFIG <- load_yaml_config "config.yaml" ;;
  match APP_CONFIG with
  | None =>
      print "Exiting due to missing or invalid YAML configuration." ;;
      exit
  | Some config =>
      let g := read_globals config in
      initialize_oracle_client g ;;
      validate_configuration g ;;
      main w g
  end.

End Script.

(** ** Observations on a trace *)

Definition is_upload (ev : event) : bool :=
  match ev with OneLakeUpload _ _ _ _ _ _ _ _ => true | AzureImport => true | _ => false end.

Definition is_read_sql (ev : event) : bool :=
  match ev with ReadSqlQuery _ => true | _ => false end.

Definition is_schema_query (ev : event) : bool :=
  match ev with Execute sql [] => String.eqb sql schema_query | _ => false end.


(** Events that touch the database, the file system or the lakehouse. *)
Definition is_print (ev : event) : bool :=
  match ev with Print _ => true | _ => false end.

Definition count (p : event -> bool) (es : list event) : nat :=
  List.length (filter p es).

(** The events of a run from the empty history, and its result. *)
Definition events_of {A} (m : M A) (h : history) : list event := snd (m h).
Definition result_of {A} (m : M A) (h : history) : outcome A := fst (m h).

(** The four fields of a table entry, as the loop of [main] reads them. *)
Definition entry_fields (cfg : table_config) : list (option string) :=
  [dict_get cfg "oracle_table_name"; dict_get cfg "local_file_name";
   dict_get cfg "lakehouse_dest_folder_path";
   dict_get cfg "lakehouse_dest_file_name"].

(** The five destination credential fields. *)
Definition fabric_fields (g : globals) : list (option string) :=
  [FABRIC_TENANT_ID g; FABRIC_CLIENT_ID g; FABRIC_CLIENT_SECRET g;
   FABRIC_WORKSPACE_ID g; FABRIC_LAKEHOUSE_ID g].

(** The turn of the loop for [cfg], started at [h], wrote the local file:
    the entry is complete and [process_table] returned the path of the file. *)
Definition local_file_written (w : world) (g : globals) (cfg : table_config)
  (h : history) (path : string) : Prop :=
  all (entry_fields cfg) = true
  /\ exists name file,
       dict_get cfg "oracle_table_name" = Some name
       /\ dict_get cfg "local_file_name" = Some file
       /\ result_of (process_table w name (BASE_LOCAL_OUTPUT_DIR g) file
                       (CAST_PRECISION g) (CAST_SCALE g)) h = Return (Some path).

(** The upload step was entered: [upload_file_to_datalake] was called. *)
Definition upload_attempted (es : list event) : bool := existsb is_upload es.

(** Two settings that Python's truth test does not tell apart when they
    differ: both are [None] or the empty string. *)
Definition same_setting (v1 v2 : option string) : Prop :=
  v1 = v2 \/ (truthy v1 = false /\ truthy v2 = false).

Definition env_equiv (env1 env2 : environ) : Prop :=
  forall name, same_setting (env1 name) (env2 name).

(** The three Oracle credentials read from the environment. *)
Definition oracle_credentials (getenv : environ) : list (option string) :=
  [getenv "ORACLE_DB_USER"; getenv "ORACLE_DB_PASSWORD"; getenv "ORACLE_DB_DSN"].

(** Events of the module level, before [main]. *)
Definition is_startup (ev : event) : bool :=
  match ev with
  | Print _ | YamlSafeLoad _ | InitOracleClient _ => true
  | _ => false
  end.

(** The first line [process_table] prints, and the catalog query of
    [get_table_column_metadata] with its bind values. *)
Definition processing_line (name : string) : event :=
  Print (nl ++ "Processing Oracle table: " ++ name ++ "...").

Definition metadata_call (owner table : string) : event :=
  Execute metadata_query [("owner_name", upper owner); ("table_name_only", upper table)].

(** ** A concrete installation, for evaluating the program *)

Module Scenario.

Definition sales_orders : table_config :=
  [("oracle_table_name", Some "SALES.ORDERS");
   ("local_file_name", Some "orders.parquet");
   ("lakehouse_dest_folder_path", Some "sales");
   ("lakehouse_dest_file_name", Some "orders.parquet")].

Definition events_table : table_config :=
  [("oracle_table_name", Some "events");
   ("local_file_name", Some "events.parquet");
   ("lakehouse_dest_folder_path", Some "web");
   ("lakehouse_dest_file_name", Some "events.parquet")].

Definition config : app_config :=
  {| thick_mode_lib_dir := None;
     base_local_output_directory := None;
     tables_to_process := Some [sales_orders; events_table];
     cast_number_to_precision := None;
     cast_number_to_scale := None;
     workspace_id := Some "ws-1";
     lakehouse_id := Some "lh-1" |}.

Definition columns : list column :=
  [("ID", "VARCHAR2"); ("AMOUNT", "NUMBER"); ("STATUS", "VARCHAR2")].

(** A world in which every collaborator succeeds, but for the two catalog
    queries, whose answers are given. *)
Definition world_with (schema : outcome (option string))
  (metadata : outcome (list column)) : world :=
  {| safe_load := fun _ => YamlLoaded (Some config);
     init_oracle_client := fun _ => Return tt;
     connect := fun _ _ _ _ => Return tt;
     current_schema := fun _ => schema;
     all_tab_columns := fun _ _ _ => metadata;
     read_sql_query := fun _ _ => Return 5;
     path_exists := fun _ _ => false;
     makedirs := fun _ _ => Return tt;
     to_parquet := fun _ _ => Return tt;
     azure_import := fun _ => Return tt;
     onelake_upload := fun _ _ _ _ _ _ _ _ _ => Return tt;
     close := fun _ => Return tt |}.

Definition world_ok : world :=
  world_with (Return (Some "analytics")) (Return columns).

(** The environment: the Oracle credentials, and the three Fabric variables
    with [secret] as [FABRIC_CLIENT_SECRET]. *)
Definition env_with (user secret : option string) : environ :=
  fun name =>
    if String.eqb name "ORACLE_DB_USER" then user
    else if String.eqb name "ORACLE_DB_PASSWORD" then Some "tiger"
    else if String.eqb name "ORACLE_DB_DSN" then Some "db/orcl"
    else if String.eqb name "FABRIC_TENANT_ID" then Some "tenant"
    else if String.eqb name "FABRIC_CLIENT_ID" then Some "client"
    else if String.eqb name "FABRIC_CLIENT_SECRET" then secret
    else None.

Definition globals_with (user secret : option string) : globals :=
  read_globals (env_with user secret) config.

Definition world_no_columns : world :=
  world_with (Return (Some "analytics")) (Return []).

Definition world_metadata_error : world :=
  world_with (Return (Some "analytics")) (Raise (OracleDatabaseError "ORA-00942")).

Definition globals_ok : globals := globals_with (Some "scott") (Some "s3cret").


End Scenario.

(** ** Further observations and installations *)

Definition is_close (ev : event) : bool :=
  match ev with CloseConnection => true | _ => false end.

Definition is_connect (ev : event) : bool :=
  match ev with Connect _ _ _ => true | _ => false end.

Definition is_init_client (ev : event) : bool :=
  match ev with InitOracleClient _ => true | _ => false end.

Definition is_execute (ev : event) : bool :=
  match ev with Execute _ _ => true | _ => false end.

Definition is_makedirs (ev : event) : bool :=
  match ev with MakeDirs _ => true | _ => false end.

Definition is_to_parquet (ev : event) : bool :=
  match ev with ToParquet _ => true | _ => false end.

Definition is_onelake_upload (ev : event) : bool :=
  match ev with OneLakeUpload _ _ _ _ _ _ _ _ => true | _ => false end.

(** Events that reach the database, the file system or the lakehouse: all
    but the printed lines. *)
Definition is_external (ev : event) : bool := negb (is_print ev).

(** The computation ended by raising a subclass of [Exception]. *)
Definition raises_Exception {A} (r : outcome A) : bool :=
  match r with Raise e => is_Exception e | Return _ => false end.

(** Two columns are cast alike: both [NUMBER], or neither. *)
Definition same_cast (col col' : column) : Prop :=
  String.eqb (snd col) "NUMBER" = String.eqb (snd col') "NUMBER".

Module Cases.

(** [w] with other answers from some of its collaborators. *)
Definition with_connect (w : world)
  (f : history -> option string -> option string -> option string -> outcome unit)
  : world :=
  {| safe_load := safe_load w; init_oracle_client := init_oracle_client w;
     connect := f; current_schema := current_schema w;
     all_tab_columns := all_tab_columns w; read_sql_query := read_sql_query w;
     path_exists := path_exists w; makedirs := makedirs w;
     to_parquet := to_parquet w; azure_import := azure_import w;
     onelake_upload := onelake_upload w; close := close w |}.

Definition with_startup (w : world) (load : string -> yaml_load)
  (init : option string -> outcome unit) : world :=
  {| safe_load := load; init_oracle_client := init;
     connect := connect w; current_schema := current_schema w;
     all_tab_columns := all_tab_columns w; read_sql_query := read_sql_query w;
     path_exists := path_exists w; makedirs := makedirs w;
     to_parquet := to_parquet w; azure_import := azure_import w;
     onelake_upload := onelake_upload w; close := close w |}.

Definition with_extraction (w : world) (sql : history -> string -> outcome nat)
  (exists_ : history -> string -> bool)
  (write : history -> string -> outcome unit) : world :=
  {| safe_load := safe_load w; init_oracle_client := init_oracle_client w;
     connect := connect w; current_schema := current_schema w;
     all_tab_columns := all_tab_columns w; read_sql_query := sql;
     path_exists := exists_; makedirs := makedirs w;
     to_parquet := write; azure_import := azure_import w;
     onelake_upload := onelake_upload w; close := close w |}.

Definition with_lakehouse (w : world) (import : history -> outcome unit)
  (upload : history -> string -> option string -> option string ->
            option string -> option string -> string -> option string ->
            option string -> outcome unit) : world :=
  {| safe_load := safe_load w; init_oracle_client := init_oracle_client w;
     connect := connect w; current_schema := current_schema w;
     all_tab_columns := all_tab_columns w; read_sql_query := read_sql_query w;
     path_exists := path_exists w; makedirs := makedirs w;
     to_parquet := to_parquet w; azure_import := import;
     onelake_upload := upload; close := close w |}.

(** The listener refuses the connection. *)
Definition world_no_connection : world :=
  with_connect Scenario.world_ok
    (fun _ _ _ _ => Raise (OracleDatabaseError "ORA-12541")).

(** The session is lost in the middle of the catalog query: the driver raises
    an error that is not a [DatabaseError]. *)
Definition world_interface_error : world :=
  Scenario.world_with (Return (Some "analytics"))
    (Raise (OtherException "DPY-1001: not connected")).

(** [config.yaml] is not there. *)
Definition world_no_config : world :=
  with_startup Scenario.world_ok (fun _ => YamlFileNotFound) (fun _ => Return tt).

(** The Oracle client libraries cannot be loaded. *)
Definition world_no_client : world :=
  with_startup Scenario.world_ok (fun _ => YamlLoaded (Some Scenario.config))
    (fun _ => Raise (OtherException "DPI-1047")).

(** The extraction query fails in pandas. *)
Definition world_query_fails : world :=
  with_extraction Scenario.world_ok
    (fun _ _ => Raise (PandasDatabaseError "Execution failed on sql"))
    (fun _ _ => false) (fun _ _ => Return tt).

(** The output directory is already there. *)
Definition world_dir_exists : world :=
  with_extraction Scenario.world_ok (fun _ _ => Return 5)
    (fun _ _ => true) (fun _ _ => Return tt).

(** The azure packages are not installed. *)
Definition world_no_azure : world :=
  with_lakehouse Scenario.world_ok
    (fun _ => Raise (OtherException "No module named 'azure'"))
    (fun _ _ _ _ _ _ _ _ _ => Return tt).

(** The lakehouse refuses the upload. *)
Definition world_upload_fails : world :=
  with_lakehouse Scenario.world_ok (fun _ => Return tt)
    (fun _ _ _ _ _ _ _ _ _ => Raise (OtherException "AuthorizationFailure")).

(** A table entry without its file name. *)
Definition entry_without_file : table_config :=
  [("oracle_table_name", Some "SALES.ORDERS");
   ("lakehouse_dest_folder_path", Some "sales");
   ("lakehouse_dest_file_name", Some "orders.parquet")].

Definition globals_no_tables : globals :=
  {| DB_USER := Some "scott"; DB_PASSWORD := Some "tiger"; DB_DSN := Some "db/orcl";
     FABRIC_TENANT_ID := Some "tenant"; FABRIC_CLIENT_ID := Some "client";
     FABRIC_CLIENT_SECRET := Some "s3cret";
     ORACLE_CLIENT_LIB_TO_USE := None;
     BASE_LOCAL_OUTPUT_DIR := "parquet_output";
     TABLES_CONFIG_LIST := [];
     CAST_PRECISION := 22; CAST_SCALE := 0;
     FABRIC_WORKSPACE_ID := Some "ws-1"; FABRIC_LAKEHOUSE_ID := Some "lh-1" |}.

End Cases.

(** * Properties *)

(** ** Strings *)

Module StrFacts.

Lemma append_assoc (a b c : string) : (a ++ b) ++ c = a ++ (b ++ c).
Proof. induction a as [|x a IH]; simpl; [reflexivity | now rewrite IH]. Qed.

Lemma length_append (a b : string) :
  String.length (a ++ b) = String.length a + String.length b.
Proof. induction a as [|x a IH]; simpl; [reflexivity | now rewrite IH]. Qed.

Lemma append_same_length (a a' b b' : string) :
  String.length a = String.length a' -> a ++ b = a' ++ b' -> a = a' /\ b = b'.
Proof.
  revert a'; induction a as [|x a IH]; intros [|x' a'] Hlen Heq;
    simpl in *; try discriminate.
  - now split.
  - injection Heq as Hx Hr. injection Hlen as Hlen.
    destruct (IH a' Hlen Hr) as [-> ->]. now subst.
Qed.

Lemma append_cancel_r (a a' b : string) : a ++ b = a' ++ b -> a = a'.
Proof.
  intros H. apply (append_same_length a a' b b); [|exact H].
  apply (f_equal String.length) in H. rewrite !length_append in H. lia.
Qed.

Lemma upper_ascii_idem (c : ascii) : upper_ascii (upper_ascii c) = upper_ascii c.
Proof.
  destruct c as [[] [] [] [] [] [] [] []]; reflexivity.
Qed.

Lemma upper_idem (s : string) : upper (upper s) = upper s.
Proof.
  induction s as [|c s IH]; simpl; [reflexivity|].
  now rewrite upper_ascii_idem, IH.
Qed.

Lemma contains_char_split1 (ch : ascii) (s : string) :
  contains_char ch s = true ->
  exists a b, split1 ch s = [a; b] /\ s = a ++ String ch b
              /\ contains_char ch a = false.
Proof.
  induction s as [|c s IH]; simpl; [discriminate|].
  destruct (Ascii.eqb c ch) eqn:E.
  - intros _. apply Ascii.eqb_eq in E. subst c.
    exists EmptyString, s. repeat split.
  - intros H. destruct (IH H) as (a & b & Hs & -> & Ha).
    exists (String c a), b. rewrite Hs. repeat split.
    simpl. now rewrite E.
Qed.

Lemma os_path_join_nonempty (a b : string) :
  b <> EmptyString -> os_path_join a b <> EmptyString.
Proof.
  intros Hb. unfold os_path_join.
  destruct b as [|x b]; [congruence|].
  assert (Hgen : match a with
                 | EmptyString => String x b
                 | String _ _ =>
                     if ends_with_slash a then a ++ String x b
                     else a ++ "/" ++ String x b
                 end <> EmptyString).
  { destruct a as [|y a]; [discriminate|].
    destruct (ends_with_slash (String y a)); simpl; discriminate. }
  destruct x as [[] [] [] [] [] [] [] []]; first [exact Hgen | discriminate].
Qed.

End StrFacts.
Import StrFacts.

(** ** The query builder *)

Lemma quoted_inj (c c' : string) : quoted c = quoted c' -> c = c'.
Proof.
  unfold quoted, dq. simpl. intros H. injection H as H.
  now apply append_cancel_r in H.
Qed.

Lemma cast_clause_inj (p s : Z) (c c' : string) :
  cast_clause p s c = cast_clause p s c' -> c = c'.
Proof.
  unfold cast_clause, quoted. intros H.
  assert (Hlen : String.length c = String.length c').
  { apply (f_equal String.length) in H.
    repeat (rewrite !length_append in H; simpl in H). lia. }
  unfold dq in H. simpl in H. injection H as H.
  rewrite !append_assoc in H.
  now destruct (append_same_length _ _ _ _ Hlen H).
Qed.

Lemma quoted_not_cast (p s : Z) (c c' : string) : quoted c <> cast_clause p s c'.
Proof. unfold quoted, cast_clause, dq. simpl. discriminate. Qed.

Lemma references_functional (p s : Z) (cl c c' : string) :
  references p s cl c -> references p s cl c' -> c = c'.
Proof.
  intros [H|H] [H'|H']; subst cl.
  - now apply quoted_inj.
  - now apply quoted_not_cast in H'.
  - symmetry in H'. now apply quoted_not_cast in H'.
  - now apply cast_clause_inj in H'.
Qed.

Lemma select_clause_references (p s : Z) (col : column) :
  references p s (select_clause p s col) (fst col).
Proof.
  destruct col as [c dt]. unfold references, select_clause. simpl.
  destruct (String.eqb dt "NUMBER"); auto.
Qed.

Lemma generate_select_query_nonempty (o t : string) (md : list column) (p s : Z) :
  md <> [] ->
  generate_select_query o t md p s = Some (select_text o t (select_clauses p s md)).
Proof. destruct md; [congruence | reflexivity]. Qed.

Lemma append_nil_r (a : string) : a ++ "" = a.
Proof. induction a as [|x a IH]; simpl; [reflexivity | now rewrite IH]. Qed.

Lemma concat_empty_cons (x : string) (l : list string) :
  String.concat "" (x :: l) = x ++ String.concat "" l.
Proof. destruct l; simpl; [now rewrite append_nil_r | reflexivity]. Qed.

Lemma concat_cons_tail (sep x : string) (l : list string) :
  String.concat sep (x :: l) = x ++ String.concat "" (map (fun y => sep ++ y) l).
Proof.
  revert x. induction l as [|y l IH]; intros x.
  - simpl. now rewrite append_nil_r.
  - change (String.concat sep (x :: y :: l)) with (x ++ sep ++ String.concat sep (y :: l)).
    rewrite IH. cbn [map]. rewrite concat_empty_cons. now rewrite append_assoc.
Qed.

(** The joined text around one of its parts: the parts before it, each
    followed by the separator, then the part, then the parts after it, each
    preceded by the separator. *)
Lemma concat_around (sep x : string) (l1 l2 : list string) :
  String.concat sep (l1 ++ x :: l2)
  = String.concat "" (map (fun y => y ++ sep) l1) ++ x
      ++ String.concat "" (map (fun y => sep ++ y) l2).
Proof.
  induction l1 as [|y l1 IH].
  - cbn [app map]. apply concat_cons_tail.
  - cbn [app map]. rewrite concat_empty_cons.
    destruct l1 as [|z l1].
    + cbn [app map] in *.
      change (String.concat sep (y :: x :: l2))
        with (y ++ sep ++ String.concat sep (x :: l2)).
      rewrite IH. cbn [String.concat]. now rewrite !append_assoc.
    + change (String.concat sep (y :: (z :: l1) ++ x :: l2))
        with (y ++ sep ++ String.concat sep ((z :: l1) ++ x :: l2)).
      rewrite IH. now rewrite !append_assoc.
Qed.

(** C1: for a non-empty metadata list the string returned is [SELECT], the
    select clauses of the columns joined by a comma and a line break, in the
    order of the list, and the [FROM] line. Around the clause of any one
    column the string holds the clauses of the columns before it, in order,
    and after it those of the columns after it, in order, and nothing else up
    to the [FROM] line: no column is added, dropped, moved or repeated. The
    clause at a position references the column at that position, and a clause
    references one column only. *)
Theorem generate_select_query_each_column_once :
  forall (owner_name table_name_only : string) (column_metadata : list column)
         (precision scale : Z),
    column_metadata <> [] ->
    generate_select_query owner_name table_name_only column_metadata precision scale
      = Some (select_text owner_name table_name_only
                (select_clauses precision scale column_metadata))
    /\ Forall2 (fun col cl => references precision scale cl (fst col))
               column_metadata (select_clauses precision scale column_metadata)
    /\ (forall cl c c', references precision scale cl c ->
                        references precision scale cl c' -> c = c')
    /\ generate_select_query owner_name table_name_only column_metadata
         precision scale
       = Some ("SELECT" ++ nl ++ "  "
               ++ String.concat ("," ++ nl ++ "  ")
                    (select_clauses precision scale column_metadata)
               ++ nl ++ "FROM " ++ dq ++ upper owner_name ++ dq ++ "."
               ++ dq ++ upper table_name_only ++ dq)
    /\ (forall before col after,
          column_metadata = (before ++ col :: after)%list ->
          references precision scale (select_clause precision scale col) (fst col)
          /\ generate_select_query owner_name table_name_only column_metadata
               precision scale
             = Some ("SELECT" ++ nl ++ "  "
                     ++ String.concat ""
                          (map (fun c => select_clause precision scale c
                                         ++ "," ++ nl ++ "  ") before)
                     ++ select_clause precision scale col
                     ++ String.concat ""
                          (map (fun c => "," ++ nl ++ "  "
                                         ++ select_clause precision scale c) after)
                     ++ nl ++ "FROM " ++ dq ++ upper owner_name ++ dq ++ "."
                     ++ dq ++ upper table_name_only ++ dq)).
Proof.
  intros o t md p s Hne.
  assert (Htext : generate_select_query o t md p s
                  = Some ("SELECT" ++ nl ++ "  "
                          ++ String.concat ("," ++ nl ++ "  ") (select_clauses p s md)
                          ++ nl ++ "FROM " ++ dq ++ upper o ++ dq ++ "."
                          ++ dq ++ upper t ++ dq)).
  { rewrite generate_select_query_nonempty by exact Hne.
    unfold select_text, join, clause_sep, quoted. now rewrite !append_assoc. }
  split; [|split; [|split; [|split]]].
  - now apply generate_select_query_nonempty.
  - clear Hne Htext. unfold select_clauses.
    induction md as [|col md IH]; simpl; constructor; auto.
    apply select_clause_references.
  - intros cl c c'. apply references_functional.
  - exact Htext.
  - intros before col after Hmd. split; [apply select_clause_references|].
    rewrite Htext. f_equal. rewrite Hmd. unfold select_clauses.
    rewrite map_app. cbn [map]. rewrite concat_around, !map_map.
    now rewrite !append_assoc.
Qed.

Lemma generate_select_query_each_column_once_witness :
  generate_select_query "SALES" "ORDERS"
    [("ID", "VARCHAR2"); ("AMOUNT", "NUMBER"); ("STATUS", "VARCHAR2")] 22 0
    = Some ("SELECT" ++ nl
            ++ "  " ++ dq ++ "ID" ++ dq ++ "," ++ nl
            ++ "  CAST(" ++ dq ++ "AMOUNT" ++ dq ++ " AS NUMBER(22,0)) AS "
                         ++ dq ++ "AMOUNT" ++ dq ++ "," ++ nl
            ++ "  " ++ dq ++ "STATUS" ++ dq ++ nl
            ++ "FROM " ++ dq ++ "SALES" ++ dq ++ "." ++ dq ++ "ORDERS" ++ dq)
  /\ Forall2 (fun col cl => references 22 0 cl (fst col))
             [("ID", "VARCHAR2"); ("AMOUNT", "NUMBER"); ("STATUS", "VARCHAR2")]
             (select_clauses 22 0
                [("ID", "VARCHAR2"); ("AMOUNT", "NUMBER"); ("STATUS", "VARCHAR2")])
  /\ generate_select_query "SALES" "ORDERS"
       [("ID", "VARCHAR2"); ("AMOUNT", "NUMBER"); ("STATUS", "VARCHAR2")] 22 0
     = Some ("SELECT" ++ nl ++ "  "
             ++ String.concat ""
                  (map (fun c => select_clause 22 0 c ++ "," ++ nl ++ "  ")
                       [("ID", "VARCHAR2")])
             ++ select_clause 22 0 ("AMOUNT", "NUMBER")
             ++ String.concat ""
                  (map (fun c => "," ++ nl ++ "  " ++ select_clause 22 0 c)
                       [("STATUS", "VARCHAR2")])
             ++ nl ++ "FROM " ++ dq ++ upper "SALES" ++ dq ++ "."
             ++ dq ++ upper "ORDERS" ++ dq).
Proof.
  destruct (@generate_select_query_each_column_once "SALES" "ORDERS"
              [("ID", "VARCHAR2"); ("AMOUNT", "NUMBER"); ("STATUS", "VARCHAR2")] 22 0
              ltac:(discriminate)) as (_ & Hrefs & _ & Htext & Haround).
  split; [|split].
  - rewrite Htext. reflexivity.
  - exact Hrefs.
  - exact (proj2 (Haround [("ID", "VARCHAR2")] ("AMOUNT", "NUMBER")
                    [("STATUS", "VARCHAR2")] eq_refl)).
Defined.

(** C2 (as the code has it): the clause emitted for a column whose
    [DATA_TYPE] is the string [NUMBER] is
    [CAST("col" AS NUMBER(precision,scale)) AS "col"]; for any other
    [DATA_TYPE] it is ["col"], the column name in double quotes. *)
Theorem generate_select_query_casts_number_columns :
  forall (owner_name table_name_only : string) (column_metadata : list column)
         (precision scale : Z) (i : nat) (c dt : string),
    nth_error column_metadata i = Some (c, dt) ->
    generate_select_query owner_name table_name_only column_metadata precision scale
      = Some (select_text owner_name table_name_only
                (select_clauses precision scale column_metadata))
    /\ List.length (select_clauses precision scale column_metadata)
       = List.length column_metadata
    /\ (dt = "NUMBER" ->
        nth_error (select_clauses precision scale column_metadata) i
        = Some ("CAST(" ++ quoted c ++ " AS NUMBER(" ++ str_of_Z precision ++ ","
                        ++ str_of_Z scale ++ ")) AS " ++ quoted c))
    /\ (dt <> "NUMBER" ->
        nth_error (select_clauses precision scale column_metadata) i
        = Some (quoted c)).
Proof.
  intros o t md p s i c dt Hi.
  assert (Hne : md <> []) by (destruct md; [destruct i; discriminate | discriminate]).
  assert (Hcl : nth_error (select_clauses p s md) i = Some (select_clause p s (c, dt))).
  { unfold select_clauses. now rewrite nth_error_map, Hi. }
  repeat split.
  - now apply generate_select_query_nonempty.
  - unfold select_clauses. apply length_map.
  - intros ->. exact Hcl.
  - intros Hdt. rewrite Hcl. simpl.
    apply String.eqb_neq in Hdt. now rewrite Hdt.
Qed.

Lemma generate_select_query_casts_number_columns_witness :
  nth_error (select_clauses 22 0 [("ID", "VARCHAR2"); ("AMOUNT", "NUMBER")]) 1
  = Some ("CAST(" ++ quoted "AMOUNT" ++ " AS NUMBER(" ++ str_of_Z 22 ++ ","
                  ++ str_of_Z 0 ++ ")) AS " ++ quoted "AMOUNT")
  /\ nth_error (select_clauses 22 0 [("ID", "VARCHAR2"); ("AMOUNT", "NUMBER")]) 0
     = Some (quoted "ID").
Proof.
  split.
  - apply (@generate_select_query_casts_number_columns "SALES" "ORDERS"
             [("ID", "VARCHAR2"); ("AMOUNT", "NUMBER")] 22 0 1 "AMOUNT" "NUMBER");
      reflexivity.
  - apply (@generate_select_query_casts_number_columns "SALES" "ORDERS"
             [("ID", "VARCHAR2"); ("AMOUNT", "NUMBER")] 22 0 0 "ID" "VARCHAR2");
      [reflexivity | discriminate].
Defined.

(** C2, the claim as worded fails: for the column [("AMOUNT", "NUMBER")] with
    precision 22 and scale 0 the clause emitted carries the keyword [NUMBER],
    not [NUMERIC]; and a [FLOAT] column is not cast at all. *)
Lemma numeric_keyword_counterexample :
  select_clauses 22 0 [("AMOUNT", "NUMBER")] = [cast_clause 22 0 "AMOUNT"]
  /\ select_clauses 22 0 [("AMOUNT", "NUMBER")] <> [spec_numeric_clause 22 0 "AMOUNT"]
  /\ generate_select_query "SALES" "ORDERS" [("AMOUNT", "NUMBER")] 22 0
     <> Some (select_text "SALES" "ORDERS" [spec_numeric_clause 22 0 "AMOUNT"])
  /\ select_clauses 22 0 [("RATIO", "FLOAT")] = [quoted "RATIO"].
Proof.
  repeat split; try reflexivity; vm_compute; discriminate.
Qed.

(** C3 (as the code has it): for owner [SALES], table [ORDERS], columns [ID]
    (not [NUMBER]), [AMOUNT] ([NUMBER]) and [STATUS] (not [NUMBER]), precision
    22 and scale 0, the query has the clauses of the scenario, one per line:
    a line break and two spaces after [SELECT] and after each comma, a line
    break before [FROM]. *)
Theorem generate_select_query_sales_orders :
  forall dt_id dt_status : string,
    dt_id <> "NUMBER" -> dt_status <> "NUMBER" ->
    generate_select_query "SALES" "ORDERS"
      [("ID", dt_id); ("AMOUNT", "NUMBER"); ("STATUS", dt_status)] 22 0
    = Some ("SELECT" ++ nl
            ++ "  " ++ dq ++ "ID" ++ dq ++ "," ++ nl
            ++ "  CAST(" ++ dq ++ "AMOUNT" ++ dq ++ " AS NUMBER(22,0)) AS "
                         ++ dq ++ "AMOUNT" ++ dq ++ "," ++ nl
            ++ "  " ++ dq ++ "STATUS" ++ dq ++ nl
            ++ "FROM " ++ dq ++ "SALES" ++ dq ++ "." ++ dq ++ "ORDERS" ++ dq).
Proof.
  intros dt1 dt3 H1 H3.
  apply String.eqb_neq in H1, H3.
  unfold generate_select_query, select_clauses. simpl map.
  rewrite H1, H3. reflexivity.
Qed.

Lemma generate_select_query_sales_orders_witness :
  generate_select_query "SALES" "ORDERS"
    [("ID", "VARCHAR2"); ("AMOUNT", "NUMBER"); ("STATUS", "VARCHAR2")] 22 0
  = Some ("SELECT" ++ nl
          ++ "  " ++ dq ++ "ID" ++ dq ++ "," ++ nl
          ++ "  CAST(" ++ dq ++ "AMOUNT" ++ dq ++ " AS NUMBER(22,0)) AS "
                       ++ dq ++ "AMOUNT" ++ dq ++ "," ++ nl
          ++ "  " ++ dq ++ "STATUS" ++ dq ++ nl
          ++ "FROM " ++ dq ++ "SALES" ++ dq ++ "." ++ dq ++ "ORDERS" ++ dq).
Proof.
  apply (@generate_select_query_sales_orders "VARCHAR2" "VARCHAR2"); discriminate.
Defined.

(** C3, the claim as worded fails: the string returned for the scenario is
    not the one-line query of the specification. *)
Lemma sales_orders_one_line_counterexample :
  generate_select_query "SALES" "ORDERS"
    [("ID", "VARCHAR2"); ("AMOUNT", "NUMBER"); ("STATUS", "VARCHAR2")] 22 0
  <> Some spec_sales_orders_query.
Proof. vm_compute. discriminate. Qed.

(** C8: the query builder returns [None] exactly when the metadata list is
    empty; for every non-empty list, whatever the owner, table, precision and
    scale, it returns a query. *)
Theorem generate_select_query_none_iff_empty :
  forall (owner_name table_name_only : string) (column_metadata : list column)
         (precision scale : Z),
    (generate_select_query owner_name table_name_only column_metadata precision scale
       = None <-> column_metadata = [])
    /\ (column_metadata <> [] ->
        exists q, generate_select_query owner_name table_name_only column_metadata
                    precision scale = Some q).
Proof.
  intros o t md p s. split; [split|].
  - destruct md; [reflexivity | discriminate].
  - intros ->. reflexivity.
  - intros Hne. rewrite (generate_select_query_nonempty o t p s Hne). eauto.
Qed.

Lemma generate_select_query_none_iff_empty_witness :
  generate_select_query "SALES" "ORDERS" [] 22 0 = None
  /\ exists q, generate_select_query "SALES" "ORDERS" [("ID", "VARCHAR2")] 22 0 = Some q.
Proof.
  split.
  - apply (proj1 (generate_select_query_none_iff_empty "SALES" "ORDERS" [] 22 0)).
    reflexivity.
  - apply (proj2 (generate_select_query_none_iff_empty "SALES" "ORDERS"
                    [("ID", "VARCHAR2")] 22 0)).
    discriminate.
Defined.

(** ** Computations *)

Lemma bind_run {A B} (m : M A) (f : A -> M B) (h : history) :
  bind m f h =
  match m h with
  | (Return a, es) =>
      (fst (f a (h ++ es)%list), (es ++ snd (f a (h ++ es)%list))%list)
  | (Raise e, es) => (Raise e, es)
  end.
Proof.
  unfold bind. destruct (m h) as [[a|e] es]; [|reflexivity].
  now destruct (f a (h ++ es)%list).
Qed.

Lemma for_each_cons {A} (body : A -> M unit) (x : A) (xs : list A) (h : history) :
  for_each body (x :: xs) h =
  match body x h with
  | (Return _, es) =>
      (fst (for_each body xs (h ++ es)%list),
       (es ++ snd (for_each body xs (h ++ es)%list))%list)
  | (Raise e, es) => (Raise e, es)
  end.
Proof. simpl. apply bind_run. Qed.

(** Every event of [m], from any history, satisfies [P]. *)
Definition emits {A} (P : event -> Prop) (m : M A) : Prop :=
  forall h, Forall P (snd (m h)).

Section Emits.

Variable P : event -> Prop.

Lemma emits_ret {A} (a : A) : emits P (ret a).
Proof. intros h. constructor. Qed.

Lemma emits_raise {A} (e : exn) : emits P (@raise A e).
Proof. intros h. constructor. Qed.

Lemma emits_call {A} (ev : event) (answer : history -> outcome A) :
  P ev -> emits P (call ev answer).
Proof. intros Hev h. simpl. now repeat constructor. Qed.

Lemma emits_bind {A B} (m : M A) (f : A -> M B) :
  emits P m -> (forall a, emits P (f a)) -> emits P (bind m f).
Proof.
  intros Hm Hf h. rewrite bind_run. specialize (Hm h).
  destruct (m h) as [[a|e] es]; simpl in *; [|assumption].
  apply Forall_app. split; [assumption | apply Hf].
Qed.

Lemma emits_try_except {A} (m : M A) (handler : exn -> option (M A)) :
  emits P m -> (forall e k, handler e = Some k -> emits P k) ->
  emits P (try_except m handler).
Proof.
  intros Hm Hk h. unfold try_except. specialize (Hm h).
  destruct (m h) as [[a|e] es]; simpl in *; [assumption|].
  destruct (handler e) as [k|] eqn:E; [|assumption].
  specialize (Hk e k E (h ++ es)%list).
  destruct (k (h ++ es)%list) as [r es']. simpl in *.
  apply Forall_app. now split.
Qed.

Lemma emits_try_finally {A} (m : M A) (fin : M unit) :
  emits P m -> emits P fin -> emits P (try_finally m fin).
Proof.
  intros Hm Hf h. unfold try_finally. specialize (Hm h).
  destruct (m h) as [r es]. specialize (Hf (h ++ es)%list).
  destruct (fin (h ++ es)%list) as [rf es']. simpl in *.
  apply Forall_app. now split.
Qed.

Lemma emits_for_each {A} (body : A -> M unit) (xs : list A) :
  (forall x, emits P (body x)) -> emits P (for_each body xs).
Proof.
  intros Hb. induction xs as [|x xs IH]; simpl.
  - apply emits_ret.
  - apply emits_bind; [apply Hb | intros _; exact IH].
Qed.

End Emits.

(** Decompose a computation into its calls; what is left are the conditions
    on the events themselves. *)
Ltac emits_handler :=
  let e := fresh "e" in
  let k := fresh "k" in
  let H := fresh "H" in
  intros e k H; destruct e; simpl in H; try discriminate H;
  injection H as H; subst k.

Ltac emits_step :=
  match goal with
  | |- emits _ (ret _) => apply emits_ret
  | |- emits _ (raise _) => apply emits_raise
  | |- emits _ exit => apply emits_raise
  | |- emits _ (print _) => apply emits_call
  | |- emits _ (call _ _) => apply emits_call
  | |- emits _ (bind _ _) => apply emits_bind; [|intros ?]
  | |- emits _ (try_except _ _) => apply emits_try_except; [|emits_handler]
  | |- emits _ (try_finally _ _) => apply emits_try_finally
  | |- emits _ (for_each _ _) => apply emits_for_each; intros ?
  | |- emits _ (match ?x with _ => _ end) => destruct x
  | |- emits _ (let '(_, _) := ?x in _) => destruct x
  end.

Ltac emits_auto := repeat emits_step; try reflexivity.

Lemma emits_count_zero {A} (p : event -> bool) (m : M A) (h : history) :
  emits (fun ev => p ev = false) m -> count p (events_of m h) = 0.
Proof.
  intros Hm. specialize (Hm h). unfold count, events_of.
  induction Hm as [|ev es Hev _ IH]; simpl; [reflexivity|].
  now rewrite Hev.
Qed.

Lemma count_cons (p : event -> bool) (ev : event) (es : list event) :
  count p (ev :: es) = (if p ev then 1 else 0) + count p es.
Proof. unfold count. simpl. now destruct (p ev). Qed.

Lemma count_app (p : event -> bool) (es es' : list event) :
  count p (es ++ es') = count p es + count p es'.
Proof. unfold count. now rewrite filter_app, length_app. Qed.


(** ** What each stage of [process_table] can emit *)

Section Stages.

Variable w : world.

Lemma extract_to_parquet_emits (P : event -> Prop) (name dir file q : string) :
  (forall s, P (Print s)) -> P (ReadSqlQuery q) -> P (PathExists dir) ->
  P (MakeDirs dir) -> P (ToParquet (os_path_join dir file)) ->
  emits P (extract_to_parquet w name dir file q).
Proof.
  intros HP HQ HE HM HT. unfold extract_to_parquet. emits_auto; auto.
Qed.

Lemma process_columns_emits (P : event -> Prop) (name dir file o t : string)
  (md : list column) (p s : Z) :
  (forall l, P (Print l)) -> (forall q, P (ReadSqlQuery q)) -> P (PathExists dir) ->
  P (MakeDirs dir) -> P (ToParquet (os_path_join dir file)) ->
  emits P (process_columns w name dir file o t md p s).
Proof.
  intros HP HQ HE HM HT. unfold process_columns.
  emits_auto; auto. apply extract_to_parquet_emits; auto.
Qed.

Lemma get_table_column_metadata_emits (P : event -> Prop) (o t : string) :
  (forall l, P (Print l)) ->
  P (Execute metadata_query [("owner_name", upper o); ("table_name_only", upper t)]) ->
  emits P (get_table_column_metadata w o t).
Proof.
  intros HP HX. unfold get_table_column_metadata. emits_auto; auto.
Qed.

Lemma resolve_owner_emits (P : event -> Prop) (name : string) :
  (forall l, P (Print l)) -> P (Execute schema_query []) ->
  emits P (resolve_owner w name).
Proof.
  intros HP HX. unfold resolve_owner. emits_auto; auto.
Qed.

Lemma process_table_emits (P : event -> Prop) (name dir file : string) (p s : Z) :
  (forall l, P (Print l)) -> (forall q b, P (Execute q b)) ->
  (forall q, P (ReadSqlQuery q)) -> P (PathExists dir) ->
  P (MakeDirs dir) -> P (ToParquet (os_path_join dir file)) ->
  emits P (process_table w name dir file p s).
Proof.
  intros HP HX HQ HE HM HT. unfold process_table.
  emits_auto; auto.
  - apply resolve_owner_emits; auto.
  - apply get_table_column_metadata_emits; auto.
  - apply process_columns_emits; auto.
Qed.

End Stages.

(** ** Running the stages *)

Section Runs.

Variable w : world.

Lemma get_table_column_metadata_run (o t : string) (h : history) :
  get_table_column_metadata w o t h =
  match all_tab_columns w h (upper o) (upper t) with
  | Return md => (Return md, [metadata_call o t])
  | Raise (OracleDatabaseError msg) =>
      (Return [], [metadata_call o t;
                   Print ("Error fetching metadata for " ++ o ++ "." ++ t ++ ": " ++ msg)])
  | Raise e => (Raise e, [metadata_call o t])
  end.
Proof.
  unfold get_table_column_metadata, try_except, call, metadata_call.
  destruct (all_tab_columns w h (upper o) (upper t)) as [md|[msg|msg|msg|]];
    reflexivity.
Qed.

Lemma resolve_owner_dotted (owner table : string) (h : history) :
  contains_char "." owner = false ->
  resolve_owner w (owner ++ "." ++ table) h = (Return (Some (owner, table)), []).
Proof.
  intros Hno. unfold resolve_owner.
  assert (Hc : contains_char "." (owner ++ "." ++ table) = true
               /\ split1 "." (owner ++ "." ++ table) = [owner; table]).
  { induction owner as [|c o IH]; simpl in *; [now split|].
    destruct (Ascii.eqb c ".") eqn:E; [discriminate|].
    destruct (IH Hno) as [H1 H2]. now rewrite H1, H2. }
  destruct Hc as [-> ->]. reflexivity.
Qed.

Lemma resolve_owner_undotted (name : string) (h : history) :
  contains_char "." name = false ->
  resolve_owner w name h =
  match current_schema w h with
  | Return (Some owner) => (Return (Some (owner, name)), [Execute schema_query []])
  | Return None =>
      (Return None,
       [Execute schema_query [];
        Print ("Could not determine current schema for table " ++ name ++ ". Skipping.")])
  | Raise (OracleDatabaseError msg) =>
      (Return None,
       [Execute schema_query [];
        Print ("Error getting current schema for " ++ name ++ ": " ++ msg ++ ". Skipping.")])
  | Raise e => (Raise e, [Execute schema_query []])
  end.
Proof.
  intros Hno. unfold resolve_owner. rewrite Hno.
  unfold try_except, bind, call.
  destruct (current_schema w h) as [[owner|]|[msg|msg|msg|]]; reflexivity.
Qed.

Lemma process_table_run (name dir file : string) (p s : Z) (h : history) :
  process_table w name dir file p s h =
  let h0 := (h ++ [processing_line name])%list in
  match resolve_owner w name h0 with
  | (Return (Some (o, t)), es1) =>
      match get_table_column_metadata w (upper o) (upper t) (h0 ++ es1)%list with
      | (Return md, es2) =>
          let r := process_columns w name dir file (upper o) (upper t) md p s
                     ((h0 ++ es1) ++ es2)%list in
          (fst r, (processing_line name :: es1 ++ es2 ++ snd r)%list)
      | (Raise e, es2) => (Raise e, (processing_line name :: es1 ++ es2)%list)
      end
  | (Return None, es1) => (Return None, (processing_line name :: es1 ++ [])%list)
  | (Raise e, es1) => (Raise e, (processing_line name :: es1)%list)
  end.
Proof.
  unfold process_table. rewrite bind_run. unfold print at 1, call at 1.
  cbv zeta. cbn [fst snd]. rewrite bind_run.
  fold (processing_line name).
  destruct (resolve_owner w name (h ++ [processing_line name])%list)
    as [[[[o t]|]|e] es1]; cbn [fst snd]; try reflexivity.
  rewrite bind_run.
  destruct (get_table_column_metadata w (upper o) (upper t)
              ((h ++ [processing_line name]) ++ es1)%list) as [[md|e] es2];
    reflexivity.
Qed.

Lemma process_columns_empty (name dir file o t : string) (p s : Z) (h : history) :
  process_columns w name dir file o t [] p s h
  = (Return None,
     [Print ("Could not retrieve metadata for " ++ o ++ "." ++ t ++ ". Skipping.")]).
Proof. reflexivity. Qed.

End Runs.

(** ** Empty metadata *)

(** C5: on an empty metadata list the query builder returns [None]; and when
    the metadata fetched for a table is empty, [process_table] returns [None]
    after printing that the metadata could not be retrieved, and no extraction
    query ([read_sql_query]) is among its events. *)
Theorem empty_metadata_fails_without_query :
  forall (w : world) (name dir file : string) (p s : Z),
    (forall o t, generate_select_query o t [] p s = None)
    /\ (forall h o t es1,
          resolve_owner w name (h ++ [processing_line name])%list
            = (Return (Some (o, t)), es1) ->
          all_tab_columns w ((h ++ [processing_line name]) ++ es1)%list
            (upper o) (upper t) = Return [] ->
          result_of (process_table w name dir file p s) h = Return None
          /\ events_of (process_table w name dir file p s) h
             = (processing_line name :: es1
                ++ [metadata_call o t;
                    Print ("Could not retrieve metadata for " ++ upper o ++ "."
                           ++ upper t ++ ". Skipping.")])%list
          /\ count is_read_sql (events_of (process_table w name dir file p s) h) = 0).
Proof.
  intros w name dir file p s. split; [reflexivity|].
  intros h o t es1 Hres Hmd.
  assert (Hrun : process_table w name dir file p s h
                 = (Return None,
                    (processing_line name :: es1
                     ++ [metadata_call o t;
                         Print ("Could not retrieve metadata for " ++ upper o ++ "."
                                ++ upper t ++ ". Skipping.")])%list)).
  { rewrite process_table_run. cbv zeta. rewrite Hres.
    rewrite get_table_column_metadata_run, !upper_idem, Hmd.
    rewrite process_columns_empty. unfold metadata_call.
    now rewrite !upper_idem. }
  unfold result_of, events_of. rewrite Hrun. cbn [fst snd].
  repeat split.
  rewrite count_cons, count_app.
  assert (Hes1 : count is_read_sql es1 = 0).
  { change es1 with (snd (Return (Some (o, t)), es1)). rewrite <- Hres.
    apply (@emits_count_zero _ is_read_sql (resolve_owner w name)).
    apply resolve_owner_emits; reflexivity. }
  rewrite Hes1. reflexivity.
Qed.

Lemma empty_metadata_fails_without_query_witness :
  result_of (process_table Scenario.world_no_columns
               "SALES.ORDERS" "parquet_output" "orders.parquet" 22 0) [] = Return None
  /\ events_of (process_table Scenario.world_no_columns
                  "SALES.ORDERS" "parquet_output" "orders.parquet" 22 0) []
     = [processing_line "SALES.ORDERS"; metadata_call "SALES" "ORDERS";
        Print "Could not retrieve metadata for SALES.ORDERS. Skipping."]
  /\ count is_read_sql
       (events_of (process_table Scenario.world_no_columns
                     "SALES.ORDERS" "parquet_output" "orders.parquet" 22 0) []) = 0.
Proof.
  apply (proj2 (empty_metadata_fails_without_query
                  Scenario.world_no_columns
                  "SALES.ORDERS" "parquet_output" "orders.parquet" 22 0)
           [] "SALES" "ORDERS" []); reflexivity.
Defined.

(** ** One turn of the loop of [main] *)

Section Loop.

Variable w : world.
Variable g : globals.

Lemma table_iteration_run (cfg : table_config) (name file : string) (h : history) :
  dict_get cfg "oracle_table_name" = Some name ->
  dict_get cfg "local_file_name" = Some file ->
  all [dict_get cfg "oracle_table_name"; dict_get cfg "local_file_name";
       dict_get cfg "lakehouse_dest_folder_path";
       dict_get cfg "lakehouse_dest_file_name"] = true ->
  table_iteration w g cfg h =
  let r := process_table w name (BASE_LOCAL_OUTPUT_DIR g) file
             (CAST_PRECISION g) (CAST_SCALE g) h in
  match fst r with
  | Return path =>
      let u := upload_step w g (Some name) (Some file)
                 (dict_get cfg "lakehouse_dest_folder_path")
                 (dict_get cfg "lakehouse_dest_file_name") path (h ++ snd r)%list in
      (fst u, (snd r ++ snd u)%list)
  | Raise e => (Raise e, snd r)
  end.
Proof.
  intros Hn Hf Hall. unfold table_iteration. rewrite Hall, Hn, Hf. cbn [negb].
  rewrite bind_run.
  destruct (process_table w name (BASE_LOCAL_OUTPUT_DIR g) file
              (CAST_PRECISION g) (CAST_SCALE g) h) as [[path|e] es]; reflexivity.
Qed.

Lemma upload_step_not_created (name file folder dest : option string) (h : history) :
  upload_step w g name file folder dest None h
  = (Return tt,
     [Print ("  Skipping upload for '" ++ fmt name
             ++ "' as local Parquet file was not created.")]).
Proof. reflexivity. Qed.

End Loop.

(** ** Errors of the catalog query *)

(** C7: when the catalog query raises [oracledb.DatabaseError],
    [get_table_column_metadata] prints the error and returns the empty list;
    [process_table] then returns [None], the turn of the loop for that table
    ends normally, and the loop goes on with the tables that follow. *)
Theorem metadata_database_error_is_empty_result :
  forall (w : world),
    (forall owner table h msg,
        all_tab_columns w h (upper owner) (upper table)
          = Raise (OracleDatabaseError msg) ->
        get_table_column_metadata w owner table h
        = (Return [],
           [metadata_call owner table;
            Print ("Error fetching metadata for " ++ owner ++ "." ++ table
                   ++ ": " ++ msg)]))
    /\ (forall (g : globals) (cfg : table_config) (rest : list table_config)
               h name file o t es1 msg,
          dict_get cfg "oracle_table_name" = Some name ->
          dict_get cfg "local_file_name" = Some file ->
          all [dict_get cfg "oracle_table_name"; dict_get cfg "local_file_name";
               dict_get cfg "lakehouse_dest_folder_path";
               dict_get cfg "lakehouse_dest_file_name"] = true ->
          resolve_owner w name (h ++ [processing_line name])%list
            = (Return (Some (o, t)), es1) ->
          all_tab_columns w ((h ++ [processing_line name]) ++ es1)%list
            (upper o) (upper t) = Raise (OracleDatabaseError msg) ->
          result_of (process_table w name (BASE_LOCAL_OUTPUT_DIR g) file
                       (CAST_PRECISION g) (CAST_SCALE g)) h = Return None
          /\ exists es,
               table_iteration w g cfg h = (Return tt, es)
               /\ for_each (table_iteration w g) (cfg :: rest) h
                  = (result_of (for_each (table_iteration w g) rest) (h ++ es)%list,
                     (es ++ events_of (for_each (table_iteration w g) rest)
                              (h ++ es)%list)%list)).
Proof.
  intros w. split.
  - intros owner table h msg Herr.
    now rewrite get_table_column_metadata_run, Herr.
  - intros g cfg rest h name file o t es1 msg Hn Hf Hall Hres Herr.
    assert (Hrun : exists es0,
               process_table w name (BASE_LOCAL_OUTPUT_DIR g) file
                 (CAST_PRECISION g) (CAST_SCALE g) h = (Return None, es0)).
    { rewrite process_table_run. cbv zeta. rewrite Hres.
      rewrite get_table_column_metadata_run, !upper_idem, Herr.
      rewrite process_columns_empty. cbn [fst snd]. eauto. }
    destruct Hrun as [es0 Hrun].
    split; [unfold result_of; now rewrite Hrun|].
    assert (Hit : table_iteration w g cfg h
                  = (Return tt,
                     (es0 ++ [Print ("  Skipping upload for '" ++ name
                                     ++ "' as local Parquet file was not created.")])%list)).
    { rewrite (table_iteration_run w g cfg h Hn Hf Hall). cbv zeta.
      rewrite Hrun. cbn [fst snd]. now rewrite upload_step_not_created. }
    eexists. split; [exact Hit|].
    rewrite for_each_cons, Hit. reflexivity.
Qed.

Lemma metadata_database_error_is_empty_result_witness :
  get_table_column_metadata Scenario.world_metadata_error "SALES" "ORDERS" []
  = (Return [],
     [metadata_call "SALES" "ORDERS";
      Print "Error fetching metadata for SALES.ORDERS: ORA-00942"])
  /\ result_of (process_table Scenario.world_metadata_error "SALES.ORDERS"
                  (BASE_LOCAL_OUTPUT_DIR Scenario.globals_ok) "orders.parquet"
                  (CAST_PRECISION Scenario.globals_ok)
                  (CAST_SCALE Scenario.globals_ok)) [] = Return None
  /\ exists es,
       table_iteration Scenario.world_metadata_error Scenario.globals_ok
         Scenario.sales_orders [] = (Return tt, es)
       /\ for_each (table_iteration Scenario.world_metadata_error Scenario.globals_ok)
            (Scenario.sales_orders :: [Scenario.events_table]) []
          = (result_of (for_each (table_iteration Scenario.world_metadata_error
                                    Scenario.globals_ok) [Scenario.events_table])
                       ([] ++ es)%list,
             (es ++ events_of (for_each (table_iteration Scenario.world_metadata_error
                                           Scenario.globals_ok) [Scenario.events_table])
                      ([] ++ es)%list)%list).
Proof.
  split.
  - apply (proj1 (metadata_database_error_is_empty_result Scenario.world_metadata_error)
             "SALES" "ORDERS" [] "ORA-00942").
    reflexivity.
  - apply (proj2 (metadata_database_error_is_empty_result Scenario.world_metadata_error)
             Scenario.globals_ok Scenario.sales_orders [Scenario.events_table] []
             "SALES.ORDERS" "orders.parquet" "SALES" "ORDERS" [] "ORA-00942");
      reflexivity.
Defined.

(** ** Owner and table name *)

(** C9: an identifier with a dot is split at its first dot, the owner being
    the text before it (dot-free) and the table name all that follows; this
    decomposition is the only one with a dot-free owner. [process_table] does
    not reject the identifier: its first action after the opening line is
    the catalog query, bound to that owner and table name, uppercased. *)
Theorem process_table_splits_at_first_dot :
  forall (w : world) (name : string),
    contains_char "." name = true ->
    exists owner table,
      name = owner ++ "." ++ table
      /\ contains_char "." owner = false
      /\ (forall o' t', name = o' ++ "." ++ t' -> contains_char "." o' = false ->
                        o' = owner /\ t' = table)
      /\ (forall h, resolve_owner w name h = (Return (Some (owner, table)), []))
      /\ (forall dir file p s h, exists r es,
            process_table w name dir file p s h
            = (r, processing_line name :: metadata_call owner table :: es)).
Proof.
  intros w name Hdot.
  destruct (contains_char_split1 "." name Hdot) as (a & b & _ & Hname & Hno).
  exists a, b.
  assert (Heq : name = a ++ "." ++ b) by exact Hname.
  assert (Hres : forall h, resolve_owner w name h = (Return (Some (a, b)), [])).
  { intros h. rewrite Heq. now apply resolve_owner_dotted. }
  assert (Huniq : forall o' t', name = o' ++ "." ++ t' ->
                                contains_char "." o' = false -> o' = a /\ t' = b).
  { intros o' t' Hn' Hno'. pose proof (Hres []) as H1. rewrite Hn' in H1.
    rewrite (@resolve_owner_dotted w o' t' [] Hno') in H1.
    injection H1 as -> ->. now split. }
  repeat split; try assumption.
  - now apply (Huniq o' t').
  - now apply (Huniq o' t').
  - intros dir file p s h. rewrite process_table_run. cbv zeta. rewrite Hres.
    rewrite get_table_column_metadata_run, !upper_idem.
    replace (metadata_call (upper a) (upper b)) with (metadata_call a b)
      by (unfold metadata_call; now rewrite !upper_idem).
    destruct (all_tab_columns w _ (upper a) (upper b)) as [md|[msg|msg|msg|]];
      cbn [fst snd app]; eauto.
Qed.

Lemma process_table_splits_at_first_dot_witness :
  exists owner table,
    "A.B.C" = owner ++ "." ++ table
    /\ contains_char "." owner = false
    /\ (forall o' t', "A.B.C" = o' ++ "." ++ t' -> contains_char "." o' = false ->
                      o' = owner /\ t' = table)
    /\ (forall h, resolve_owner Scenario.world_ok "A.B.C" h
                  = (Return (Some (owner, table)), []))
    /\ (forall dir file p s h, exists r es,
          process_table Scenario.world_ok "A.B.C" dir file p s h
          = (r, processing_line "A.B.C" :: metadata_call owner table :: es)).
Proof.
  apply (@process_table_splits_at_first_dot Scenario.world_ok "A.B.C").
  reflexivity.
Defined.

Example resolve_owner_A_B_C (w : world) (h : history) :
  resolve_owner w "A.B.C" h = (Return (Some ("A", "B.C")), []).
Proof. reflexivity. Qed.




(** ** The local file and the upload step *)

Ltac run_calls :=
  cbv beta iota zeta delta [bind call print ret raise exit try_except try_finally is_Exception];
  cbn [fst snd negb app].

Section Upload.

Variable w : world.

Lemma extract_to_parquet_some (name dir file q path : string) (h : history) :
  fst (extract_to_parquet w name dir file q h) = Return (Some path) ->
  path = os_path_join dir file
  /\ exists es0,
       snd (extract_to_parquet w name dir file q h)
       = (es0 ++ [ToParquet path;
                  Print ("  Successfully saved data for " ++ name
                         ++ " to local file: " ++ path)])%list.
Proof.
  unfold extract_to_parquet. run_calls.
  destruct (read_sql_query w _ q) as [df|[]]; run_calls; try discriminate.
  destruct (path_exists w _ dir); run_calls.
  - destruct (to_parquet w _ (os_path_join dir file)) as [[]|[]]; run_calls;
      try discriminate.
    intros H. injection H as <-. split; [reflexivity|].
    exists [Print ("  Executing query and fetching data for " ++ name ++ "...");
            ReadSqlQuery q;
            Print ("  Successfully fetched " ++ str_of_Z (Z.of_nat df) ++ " rows for "
                   ++ name ++ ".");
            PathExists dir].
    reflexivity.
  - destruct (makedirs w _ dir) as [[]|[]]; run_calls; try discriminate.
    destruct (to_parquet w _ (os_path_join dir file)) as [[]|[]]; run_calls;
      try discriminate.
    intros H. injection H as <-. split; [reflexivity|].
    exists [Print ("  Executing query and fetching data for " ++ name ++ "...");
            ReadSqlQuery q;
            Print ("  Successfully fetched " ++ str_of_Z (Z.of_nat df) ++ " rows for "
                   ++ name ++ ".");
            PathExists dir; MakeDirs dir;
            Print ("  Created local output directory: " ++ dir)].
    reflexivity.
Qed.

Lemma process_columns_some (name dir file o t path : string) (md : list column)
  (p s : Z) (h : history) :
  fst (process_columns w name dir file o t md p s h) = Return (Some path) ->
  path = os_path_join dir file
  /\ exists es0,
       snd (process_columns w name dir file o t md p s h)
       = (es0 ++ [ToParquet path;
                  Print ("  Successfully saved data for " ++ name
                         ++ " to local file: " ++ path)])%list.
Proof.
  unfold process_columns. destruct md as [|col md]; [discriminate|].
  destruct (generate_select_query o t (col :: md) p s) as [q|]; [|discriminate].
  rewrite bind_run. unfold print at 1 2, call at 1 2. cbn [fst snd].
  intros H. destruct (extract_to_parquet_some _ _ _ _ _ H) as (-> & es0 & ->).
  split; [reflexivity|]. eexists. rewrite app_assoc. reflexivity.
Qed.

Lemma process_table_some (name dir file path : string) (p s : Z) (h : history) :
  result_of (process_table w name dir file p s) h = Return (Some path) ->
  path = os_path_join dir file
  /\ exists es0,
       events_of (process_table w name dir file p s) h
       = (es0 ++ [ToParquet path;
                  Print ("  Successfully saved data for " ++ name
                         ++ " to local file: " ++ path)])%list.
Proof.
  unfold result_of, events_of. rewrite process_table_run. cbv zeta.
  destruct (resolve_owner w name _) as [[[[o t]|]|e] es1]; try discriminate.
  destruct (get_table_column_metadata w (upper o) (upper t) _) as [[md|e] es2];
    try discriminate.
  cbn [fst snd]. intros H.
  destruct (process_columns_some _ _ _ _ _ _ _ _ _ H) as (-> & es0 & ->).
  split; [reflexivity|].
  exists (processing_line name :: es1 ++ es2 ++ es0)%list.
  cbn [app]. now rewrite <- !app_assoc.
Qed.


Variable g : globals.



Lemma all_entry_fields (cfg : table_config) :
  all (entry_fields cfg) = true ->
  exists name file,
    dict_get cfg "oracle_table_name" = Some name
    /\ dict_get cfg "local_file_name" = Some file
    /\ file <> EmptyString.
Proof.
  unfold all, entry_fields. cbn [forallb].
  destruct (dict_get cfg "oracle_table_name") as [[|c n]|]; try discriminate.
  destruct (dict_get cfg "local_file_name") as [[|c' f]|]; try discriminate.
  intros _. do 2 eexists. repeat split. discriminate.
Qed.


End Upload.





(** ** Empty and absent settings *)

Lemma bind_ext {A B} (m m' : M A) (f f' : A -> M B) :
  (forall h, m h = m' h) -> (forall a h, f a h = f' a h) ->
  forall h, bind m f h = bind m' f' h.
Proof.
  intros Hm Hf h. unfold bind. rewrite Hm.
  destruct (m' h) as [[a|e] es]; [|reflexivity]. now rewrite Hf.
Qed.

Lemma for_each_ext {A} (body body' : A -> M unit) (xs : list A) :
  (forall x h, body x h = body' x h) ->
  forall h, for_each body xs h = for_each body' xs h.
Proof.
  intros Hb. induction xs as [|x xs IH]; intros h; simpl; [reflexivity|].
  apply bind_ext; [apply Hb | intros _; apply IH].
Qed.

Lemma try_finally_ext {A} (m m' : M A) (fin : M unit) :
  (forall h, m h = m' h) -> forall h, try_finally m fin h = try_finally m' fin h.
Proof. intros Hm h. unfold try_finally. now rewrite Hm. Qed.

Lemma same_setting_truthy (v1 v2 : option string) :
  same_setting v1 v2 -> truthy v1 = truthy v2.
Proof. intros [->|[-> ->]]; reflexivity. Qed.

Lemma same_setting_eq (v1 v2 : option string) :
  same_setting v1 v2 -> truthy v1 = true -> v1 = v2.
Proof. intros [->|[H _]] Ht; [reflexivity | congruence]. Qed.

Lemma validate_configuration_returns (g : globals) (h : history) (es : list event) :
  validate_configuration g h = (Return tt, es) ->
  all [DB_USER g; DB_PASSWORD g; DB_DSN g] = true.
Proof.
  unfold validate_configuration.
  destruct (all [DB_USER g; DB_PASSWORD g; DB_DSN g]); [reflexivity|].
  run_calls. discriminate.
Qed.

Section Settings.

Variable w : world.
Variables env1 env2 : environ.
Hypothesis Henv : env_equiv env1 env2.

Section Config.

Variable cfg : app_config.

Local Abbreviation g1 := (read_globals env1 cfg).
Local Abbreviation g2 := (read_globals env2 cfg).

Lemma fabric_complete_env : FABRIC_CONFIG_COMPLETE g1 = FABRIC_CONFIG_COMPLETE g2.
Proof.
  unfold FABRIC_CONFIG_COMPLETE, all. cbn.
  now rewrite (same_setting_truthy (Henv "FABRIC_TENANT_ID")),
    (same_setting_truthy (Henv "FABRIC_CLIENT_ID")),
    (same_setting_truthy (Henv "FABRIC_CLIENT_SECRET")).
Qed.

Lemma fabric_fields_env :
  FABRIC_CONFIG_COMPLETE g1 = true ->
  env1 "FABRIC_TENANT_ID" = env2 "FABRIC_TENANT_ID"
  /\ env1 "FABRIC_CLIENT_ID" = env2 "FABRIC_CLIENT_ID"
  /\ env1 "FABRIC_CLIENT_SECRET" = env2 "FABRIC_CLIENT_SECRET".
Proof.
  unfold FABRIC_CONFIG_COMPLETE, all. cbn. intros H.
  apply andb_true_iff in H. destruct H as [H1 H].
  apply andb_true_iff in H. destruct H as [H2 H].
  apply andb_true_iff in H. destruct H as [H3 _].
  repeat split; apply same_setting_eq; auto.
Qed.

Lemma upload_step_env (name file folder dest path : option string) (h : history) :
  upload_step w g1 name file folder dest path h
  = upload_step w g2 name file folder dest path h.
Proof.
  unfold upload_step. rewrite <- fabric_complete_env.
  destruct (FABRIC_CONFIG_COMPLETE g1) eqn:Hc.
  - destruct (fabric_fields_env Hc) as (Ht & Hi & Hs).
    cbn. now rewrite Ht, Hi, Hs.
  - now rewrite !andb_false_r.
Qed.

Lemma table_iteration_env (entry : table_config) (h : history) :
  table_iteration w g1 entry h = table_iteration w g2 entry h.
Proof.
  unfold table_iteration.
  destruct (negb (all _)); [reflexivity|].
  destruct (dict_get entry "oracle_table_name") as [name|]; [|reflexivity].
  destruct (dict_get entry "local_file_name") as [file|]; [|reflexivity].
  apply bind_ext; [reflexivity|]. intros path h'. apply upload_step_env.
Qed.

Lemma oracle_credentials_env :
  all (oracle_credentials env1) = all (oracle_credentials env2).
Proof.
  unfold all, oracle_credentials. cbn.
  now rewrite (same_setting_truthy (Henv "ORACLE_DB_USER")),
    (same_setting_truthy (Henv "ORACLE_DB_PASSWORD")),
    (same_setting_truthy (Henv "ORACLE_DB_DSN")).
Qed.

Lemma oracle_credentials_eq :
  all (oracle_credentials env1) = true ->
  env1 "ORACLE_DB_USER" = env2 "ORACLE_DB_USER"
  /\ env1 "ORACLE_DB_PASSWORD" = env2 "ORACLE_DB_PASSWORD"
  /\ env1 "ORACLE_DB_DSN" = env2 "ORACLE_DB_DSN".
Proof.
  unfold all, oracle_credentials. cbn. intros H.
  apply andb_true_iff in H. destruct H as [H1 H].
  apply andb_true_iff in H. destruct H as [H2 H].
  apply andb_true_iff in H. destruct H as [H3 _].
  repeat split; apply same_setting_eq; auto.
Qed.

Lemma main_env (h : history) :
  all (oracle_credentials env1) = true -> main w g1 h = main w g2 h.
Proof.
  intros Hall. destruct (oracle_credentials_eq Hall) as (Hu & Hp & Hd).
  unfold main. apply bind_ext; [reflexivity|]. intros _ h1.
  apply bind_ext.
  - intros h2. cbn. now rewrite Hu, Hp, Hd.
  - intros [conn|] h2; [|reflexivity].
    apply bind_ext; [|reflexivity].
    apply try_finally_ext. intros h3.
    change (TABLES_CONFIG_LIST g2) with (TABLES_CONFIG_LIST g1).
    destruct (TABLES_CONFIG_LIST g1) as [|entry tables]; [reflexivity|].
    apply bind_ext; [reflexivity|]. intros _ h4.
    apply bind_ext; [reflexivity|]. intros _ h5.
    apply for_each_ext. intros x h6. apply table_iteration_env.
Qed.

Lemma client_lib_env : ORACLE_CLIENT_LIB_TO_USE g1 = ORACLE_CLIENT_LIB_TO_USE g2.
Proof.
  cbn.
  destruct (Henv "ORACLE_CLIENT_LIB_DIR") as [->|[-> ->]]; reflexivity.
Qed.

Lemma initialize_oracle_client_env (h : history) :
  initialize_oracle_client w g1 h = initialize_oracle_client w g2 h.
Proof. unfold initialize_oracle_client. now rewrite client_lib_env. Qed.

Lemma validate_configuration_env (h : history) :
  validate_configuration g1 h = validate_configuration g2 h.
Proof.
  unfold validate_configuration. rewrite <- fabric_complete_env.
  change (all [DB_USER g1; DB_PASSWORD g1; DB_DSN g1])
    with (all (oracle_credentials env1)).
  change (all [DB_USER g2; DB_PASSWORD g2; DB_DSN g2])
    with (all (oracle_credentials env2)).
  now rewrite oracle_credentials_env.
Qed.

End Config.

Lemma run_all_env (h : history) : run_all w env1 h = run_all w env2 h.
Proof.
  unfold run_all. apply bind_ext; [reflexivity|]. intros [cfg|] h1; [|reflexivity].
  cbv zeta. apply bind_ext; [apply initialize_oracle_client_env|]. intros _ h2.
  unfold bind. rewrite validate_configuration_env.
  destruct (validate_configuration (read_globals env2 cfg) h2) as [[[]|e] es] eqn:E;
    [|reflexivity].
  apply validate_configuration_returns in E.
  change (all (oracle_credentials env2) = true) in E.
  rewrite <- oracle_credentials_env in E.
  now rewrite (main_env cfg _ E).
Qed.

End Settings.

Section Startup.

Variable w : world.

Lemma load_yaml_config_run (config_path : string) (h : history) :
  exists es,
    load_yaml_config w config_path h
    = (Return match safe_load w config_path with
              | YamlLoaded config => config
              | _ => None
              end, es)
    /\ Forall (fun ev => is_startup ev = true) es.
Proof.
  unfold load_yaml_config. run_calls.
  destruct (safe_load w config_path); eexists; split; try reflexivity;
    repeat constructor.
Qed.

Lemma initialize_oracle_client_run (g : globals) (h : history) :
  exists r es,
    initialize_oracle_client w g h = (r, es)
    /\ (r = Return tt \/ r = Raise SystemExit)
    /\ ((forall lib, init_oracle_client w lib = Return tt) -> r = Return tt)
    /\ Forall (fun ev => is_startup ev = true) es.
Proof.
  unfold initialize_oracle_client.
  destruct (truthy (ORACLE_CLIENT_LIB_TO_USE g)); run_calls.
  - destruct (init_oracle_client w (ORACLE_CLIENT_LIB_TO_USE g)) as [[]|[]] eqn:E;
      run_calls; do 2 eexists; (split; [reflexivity|]);
      (split; [auto|]); (split; [|repeat constructor]);
      try reflexivity; intros H; rewrite H in E; discriminate.
  - destruct (init_oracle_client w None) as [[]|[]] eqn:E;
      run_calls; do 2 eexists; (split; [reflexivity|]);
      (split; [auto|]); (split; [|repeat constructor]);
      try reflexivity; intros H; rewrite H in E; discriminate.
Qed.

Lemma validate_configuration_run (g : globals) (h : history) :
  exists es,
    validate_configuration g h
    = (if all [DB_USER g; DB_PASSWORD g; DB_DSN g] then Return tt
       else Raise SystemExit, es)
    /\ Forall (fun ev => is_startup ev = true) es.
Proof.
  unfold validate_configuration.
  destruct (all [DB_USER g; DB_PASSWORD g; DB_DSN g]); run_calls.
  - destruct (TABLES_CONFIG_LIST g), (FABRIC_CONFIG_COMPLETE g); run_calls;
      eexists; split; try reflexivity; repeat constructor.
  - eexists; split; try reflexivity; repeat constructor.
Qed.

Lemma upload_step_incomplete (g : globals)
  (name file folder dest path : option string) :
  FABRIC_CONFIG_COMPLETE g = false ->
  emits (fun ev => is_upload ev = false) (upload_step w g name file folder dest path).
Proof.
  intros Hc. unfold upload_step. rewrite Hc, andb_false_r. emits_auto.
Qed.

Lemma main_incomplete (g : globals) :
  FABRIC_CONFIG_COMPLETE g = false ->
  emits (fun ev => is_upload ev = false) (main w g).
Proof.
  intros Hc. unfold main, get_oracle_connection, table_iteration. emits_auto.
  - apply (@process_table_emits w (fun ev => is_upload ev = false)); reflexivity.
  - now apply upload_step_incomplete.
Qed.

Lemma startup_not_upload (es : list event) :
  Forall (fun ev => is_startup ev = true) es ->
  Forall (fun ev => is_upload ev = false) es.
Proof.
  intros H. eapply Forall_impl; [|exact H].
  intros [] Hs; try reflexivity; discriminate.
Qed.

Lemma upload_attempted_false (es : list event) :
  Forall (fun ev => is_upload ev = false) es -> upload_attempted es = false.
Proof.
  intros H. unfold upload_attempted.
  induction H as [|ev es Hev _ IH]; simpl; [reflexivity|]. now rewrite Hev.
Qed.

(** The shape of a whole run, by the outcome of the module level. *)
Lemma run_all_run (getenv : environ) (h : history) :
  exists pre,
    Forall (fun ev => is_startup ev = true) pre
    /\ match safe_load w "config.yaml" with
       | YamlLoaded (Some config) =>
           let g := read_globals getenv config in
           (run_all w getenv h = (Raise SystemExit, pre)
            /\ (all (oracle_credentials getenv) = true ->
                ~ (forall lib, init_oracle_client w lib = Return tt)))
           \/ (all (oracle_credentials getenv) = true
               /\ run_all w getenv h
                  = (result_of (main w g) (h ++ pre)%list,
                     (pre ++ events_of (main w g) (h ++ pre)%list)%list))
       | _ => run_all w getenv h = (Raise SystemExit, pre)
       end.
Proof.
  unfold run_all. rewrite bind_run.
  destruct (load_yaml_config_run "config.yaml" h) as (es0 & -> & H0).
  cbn [fst snd].
  assert (Hnone : exists pre,
             Forall (fun ev => is_startup ev = true) pre
             /\ (fst ((print "Exiting due to missing or invalid YAML configuration.";;
                       @exit unit) (h ++ es0)%list),
                 (es0 ++ snd ((print "Exiting due to missing or invalid YAML configuration.";;
                               @exit unit) (h ++ es0)%list))%list)
                = (Raise SystemExit, pre)).
  { run_calls. eexists. split; [|reflexivity].
    apply Forall_app. split; [exact H0 | repeat constructor]. }
  destruct (safe_load w "config.yaml") as [| | |[config|]];
    try (destruct Hnone as (pre & Hp & He); exists pre; split; [exact Hp|exact He]).
  clear Hnone. cbv zeta. rewrite bind_run.
  destruct (initialize_oracle_client_run (read_globals getenv config) (h ++ es0)%list)
    as (r & es1 & -> & Hr & Hok & H1).
  cbn [fst snd].
  destruct Hr as [-> | ->].
  2:{ exists (es0 ++ es1)%list. split; [apply Forall_app; now split|].
      left. split; [reflexivity|]. intros _ Hall. specialize (Hok Hall). discriminate. }
  rewrite bind_run.
  destruct (validate_configuration_run (read_globals getenv config)
              ((h ++ es0) ++ es1)%list) as (es2 & -> & H2).
  change (all [DB_USER (read_globals getenv config);
               DB_PASSWORD (read_globals getenv config);
               DB_DSN (read_globals getenv config)])
    with (all (oracle_credentials getenv)).
  exists (es0 ++ es1 ++ es2)%list.
  split; [repeat (apply Forall_app; split); assumption|].
  destruct (all (oracle_credentials getenv)); cbn [fst snd].
  - right. split; [reflexivity|].
    unfold result_of, events_of. now rewrite !app_assoc.
  - left. split; [now rewrite !app_assoc | discriminate].
Qed.

End Startup.

Lemma empty_or_absent_not_all (vs : list (option string)) :
  (exists v, In v vs /\ (v = None \/ v = Some "")) -> all vs = false.
Proof.
  intros (v & Hin & Hv). unfold all.
  destruct (forallb truthy vs) eqn:E; [|reflexivity].
  rewrite forallb_forall in E. specialize (E v Hin).
  destruct Hv as [-> | ->]; discriminate.
Qed.

(** C10: a setting that is the empty string counts as one that is absent: two
    environments that differ only there give the same run. When one of the
    three Oracle credentials is empty or absent, the run ends by [exit()]
    having done nothing but the start-up steps (no connection, no table).
    When one of the five Fabric fields is empty or absent, no upload is
    attempted in the whole run, and the run is not ended for it: with the
    Oracle client initialised and the Oracle credentials set, it goes on
    into [main]. *)
Theorem empty_setting_is_absent_setting :
  forall (w : world),
    (forall env1 env2 h, env_equiv env1 env2 -> run_all w env1 h = run_all w env2 h)
    /\ (forall env h,
          (exists v, In v (oracle_credentials env) /\ (v = None \/ v = Some "")) ->
          result_of (run_all w env) h = Raise SystemExit
          /\ Forall (fun ev => is_startup ev = true) (events_of (run_all w env) h))
    /\ (forall env h config,
          safe_load w "config.yaml" = YamlLoaded (Some config) ->
          (exists v, In v (fabric_fields (read_globals env config))
                     /\ (v = None \/ v = Some "")) ->
          upload_attempted (events_of (run_all w env) h) = false
          /\ ((forall lib, init_oracle_client w lib = Return tt) ->
              all (oracle_credentials env) = true ->
              exists pre,
                Forall (fun ev => is_startup ev = true) pre
                /\ run_all w env h
                   = (result_of (main w (read_globals env config)) (h ++ pre)%list,
                      (pre ++ events_of (main w (read_globals env config))
                                (h ++ pre)%list)%list))).
Proof.
  intros w. split; [|split].
  - intros env1 env2 h Henv. now apply run_all_env.
  - intros env h Hempty. apply empty_or_absent_not_all in Hempty.
    destruct (run_all_run w env h) as (pre & Hpre & Hrun).
    unfold result_of, events_of.
    destruct (safe_load w "config.yaml") as [| | |[config|]];
      try (rewrite Hrun; now split).
    destruct Hrun as [[Hrun _] | [Hall _]]; [rewrite Hrun; now split | congruence].
  - intros env h config Hload Hempty.
    apply empty_or_absent_not_all in Hempty.
    change (FABRIC_CONFIG_COMPLETE (read_globals env config) = false) in Hempty.
    destruct (run_all_run w env h) as (pre & Hpre & Hrun).
    rewrite Hload in Hrun. cbv zeta in Hrun. unfold events_of.
    destruct Hrun as [[Hrun Hnot] | [Hall Hrun]]; rewrite Hrun; cbn [snd].
    + split.
      * now apply upload_attempted_false, startup_not_upload.
      * intros Hinit Hcred. now destruct (Hnot Hcred).
    + split.
      * apply upload_attempted_false, Forall_app. split.
        -- now apply startup_not_upload.
        -- now apply main_incomplete.
      * intros _ _. exists pre. now split.
Qed.

Lemma empty_setting_is_absent_setting_witness :
  run_all Scenario.world_ok (Scenario.env_with (Some "scott") (Some "")) []
  = run_all Scenario.world_ok (Scenario.env_with (Some "scott") None) []
  /\ (result_of (run_all Scenario.world_ok (Scenario.env_with (Some "") (Some "s3cret"))) []
      = Raise SystemExit
      /\ Forall (fun ev => is_startup ev = true)
           (events_of (run_all Scenario.world_ok
                         (Scenario.env_with (Some "") (Some "s3cret"))) []))
  /\ upload_attempted
       (events_of (run_all Scenario.world_ok (Scenario.env_with (Some "scott") (Some ""))) [])
     = false.
Proof.
  split; [|split].
  - apply (proj1 (empty_setting_is_absent_setting Scenario.world_ok)).
    intros name. unfold Scenario.env_with.
    repeat match goal with
           | |- same_setting (if ?b then _ else _) _ => destruct b
           end; try (left; reflexivity).
    right. split; reflexivity.
  - apply (proj1 (proj2 (empty_setting_is_absent_setting Scenario.world_ok))).
    exists (Some ""). split; [left; reflexivity | right; reflexivity].
  - refine (proj1 (proj2 (proj2 (empty_setting_is_absent_setting Scenario.world_ok))
                     (Scenario.env_with (Some "scott") (Some "")) []
                     Scenario.config eq_refl _)).
    exists (Some ""). split; [right; right; left; reflexivity | right; reflexivity].
Defined.

(** * Further properties *)

(** ** The query builder *)

(** X1: the query depends on the owner and the table name only through their
    uppercase forms: two spellings that differ in letter case give the same
    query. *)
Theorem generate_select_query_case_insensitive :
  forall (owner_name owner_name' table_name_only table_name_only' : string)
         (column_metadata : list column) (precision scale : Z),
    upper owner_name = upper owner_name' ->
    upper table_name_only = upper table_name_only' ->
    generate_select_query owner_name table_name_only column_metadata precision scale
    = generate_select_query owner_name' table_name_only' column_metadata
        precision scale.
Proof.
  intros o o' t t' md p s Ho Ht.
  destruct md as [|col md]; [reflexivity|].
  rewrite !generate_select_query_nonempty by discriminate.
  unfold select_text. now rewrite Ho, Ht.
Qed.

Lemma generate_select_query_case_insensitive_witness :
  generate_select_query "sales" "Orders" Scenario.columns 22 0
  = generate_select_query "SALES" "ORDERS" Scenario.columns 22 0.
Proof.
  apply (@generate_select_query_case_insensitive "sales" "SALES" "Orders" "ORDERS"
           Scenario.columns 22 0); reflexivity.
Defined.

Lemma select_clause_eq_iff (p s : Z) (col col' : column) :
  select_clause p s col = select_clause p s col'
  <-> fst col = fst col' /\ same_cast col col'.
Proof.
  destruct col as [c dt], col' as [c' dt']. unfold same_cast. simpl.
  destruct (String.eqb dt "NUMBER"), (String.eqb dt' "NUMBER"); split.
  - intros H. apply cast_clause_inj in H. now split.
  - intros [-> _]. reflexivity.
  - intros H. symmetry in H. now apply quoted_not_cast in H.
  - intros [_ H]. discriminate.
  - intros H. now apply quoted_not_cast in H.
  - intros [_ H]. discriminate.
  - intros H. apply quoted_inj in H. now split.
  - intros [-> _]. reflexivity.
Qed.

(** X2: two metadata lists give the same select clauses exactly when they
    have the same column names in the same order and agree, column by column,
    on whether the type is [NUMBER]: nothing else of the declared types
    reaches the query. *)
Theorem select_clauses_determine_columns :
  forall (precision scale : Z) (column_metadata column_metadata' : list column),
    select_clauses precision scale column_metadata
    = select_clauses precision scale column_metadata'
    <-> Forall2 (fun col col' => fst col = fst col' /\ same_cast col col')
                column_metadata column_metadata'.
Proof.
  intros p s md. unfold select_clauses.
  induction md as [|col md IH]; intros [|col' md']; simpl; split; intros H;
    try discriminate; try (inversion H; fail); try constructor.
  - injection H as H1 H2. now apply (select_clause_eq_iff p s).
  - injection H as H1 H2. now apply IH.
  - inversion H as [|? ? ? ? Hc Hr]; subst.
    apply (select_clause_eq_iff p s) in Hc. apply IH in Hr. now rewrite Hc, Hr.
Qed.

Lemma select_clauses_determine_columns_witness :
  select_clauses 22 0 [("ID", "VARCHAR2"); ("AMOUNT", "NUMBER")]
  = select_clauses 22 0 [("ID", "DATE"); ("AMOUNT", "NUMBER")]
  /\ (select_clauses 22 0 [("ID", "VARCHAR2")] = select_clauses 22 0 [("id", "VARCHAR2")]
      -> False).
Proof.
  split.
  - apply (proj2 (select_clauses_determine_columns 22 0
                    [("ID", "VARCHAR2"); ("AMOUNT", "NUMBER")]
                    [("ID", "DATE"); ("AMOUNT", "NUMBER")])).
    repeat constructor.
  - intros H.
    apply (proj1 (select_clauses_determine_columns 22 0
                    [("ID", "VARCHAR2")] [("id", "VARCHAR2")])) in H.
    inversion H as [|? ? ? ? [Hc _] _]. discriminate Hc.
Defined.

(** ** Resolving the owner *)

(** X3: for an identifier with an owner prefix (a dot), [process_table] never
    issues the session-context query. *)
Theorem process_table_dotted_no_schema_query :
  forall (w : world) (name dir file : string) (p s : Z) (h : history),
    contains_char "." name = true ->
    count is_schema_query (events_of (process_table w name dir file p s) h) = 0.
Proof.
  intros w name dir file p s h Hdot.
  destruct (contains_char_split1 "." name Hdot) as (a & b & _ & Hname & Hno).
  assert (Hres : forall hh, resolve_owner w name hh = (Return (Some (a, b)), [])).
  { intros hh. rewrite Hname. now apply resolve_owner_dotted. }
  unfold events_of. rewrite process_table_run. cbv zeta. rewrite Hres.
  pose proof (@emits_count_zero _ is_schema_query
                (get_table_column_metadata w (upper a) (upper b))
                ((h ++ [processing_line name]) ++ [])%list) as Hm.
  unfold events_of in Hm.
  destruct (get_table_column_metadata w (upper a) (upper b) _) as [[md|e] es2];
    cbn [fst snd app] in *.
  - rewrite count_cons, count_app, Hm
      by (apply get_table_column_metadata_emits; reflexivity).
    cbn [is_schema_query processing_line plus].
    apply (@emits_count_zero _ is_schema_query
             (process_columns w name dir file (upper a) (upper b) md p s)).
    apply process_columns_emits; reflexivity.
  - rewrite count_cons, Hm by (apply get_table_column_metadata_emits; reflexivity).
    reflexivity.
Qed.

Lemma process_table_dotted_no_schema_query_witness :
  count is_schema_query
    (events_of (process_table Scenario.world_ok "SALES.ORDERS" "parquet_output"
                  "orders.parquet" 22 0) []) = 0.
Proof.
  apply (@process_table_dotted_no_schema_query Scenario.world_ok "SALES.ORDERS"
           "parquet_output" "orders.parquet" 22 0 []).
  reflexivity.
Defined.

(** X4: for an identifier without a dot, when the session-context query
    returns no row or raises [oracledb.DatabaseError], [process_table] returns
    [None] after one printed line and does nothing more: no catalog query, no
    extraction. Any other exception of that query leaves [process_table]
    uncaught. *)
Theorem process_table_schema_failure :
  forall (w : world) (name dir file : string) (p s : Z) (h : history),
    contains_char "." name = false ->
    (current_schema w (h ++ [processing_line name])%list = Return None ->
     process_table w name dir file p s h
     = (Return None,
        [processing_line name; Execute schema_query [];
         Print ("Could not determine current schema for table " ++ name
                ++ ". Skipping.")]))
    /\ (forall msg,
          current_schema w (h ++ [processing_line name])%list
            = Raise (OracleDatabaseError msg) ->
          process_table w name dir file p s h
          = (Return None,
             [processing_line name; Execute schema_query [];
              Print ("Error getting current schema for " ++ name ++ ": " ++ msg
                     ++ ". Skipping.")]))
    /\ (forall e,
          current_schema w (h ++ [processing_line name])%list = Raise e ->
          (forall msg, e <> OracleDatabaseError msg) ->
          process_table w name dir file p s h
          = (Raise e, [processing_line name; Execute schema_query []])).
Proof.
  intros w name dir file p s h Hno.
  repeat split.
  - intros Hs. rewrite process_table_run. cbv zeta.
    now rewrite (resolve_owner_undotted w name _ Hno), Hs.
  - intros msg Hs. rewrite process_table_run. cbv zeta.
    now rewrite (resolve_owner_undotted w name _ Hno), Hs.
  - intros e Hs He. rewrite process_table_run. cbv zeta.
    rewrite (resolve_owner_undotted w name _ Hno), Hs.
    destruct e as [msg|msg|msg|]; try reflexivity. now destruct (He msg).
Qed.

Lemma process_table_schema_failure_witness :
  process_table (Scenario.world_with (Return None) (Return Scenario.columns))
    "events" "parquet_output" "events.parquet" 22 0 []
  = (Return None,
     [processing_line "events"; Execute schema_query [];
      Print ("Could not determine current schema for table " ++ "events"
             ++ ". Skipping.")])
  /\ process_table (Scenario.world_with (Raise (OracleDatabaseError "ORA-03114"))
                      (Return Scenario.columns))
       "events" "parquet_output" "events.parquet" 22 0 []
     = (Return None,
        [processing_line "events"; Execute schema_query [];
         Print ("Error getting current schema for " ++ "events" ++ ": " ++ "ORA-03114"
                ++ ". Skipping.")])
  /\ process_table (Scenario.world_with (Raise (OtherException "DPY-1001"))
                      (Return Scenario.columns))
       "events" "parquet_output" "events.parquet" 22 0 []
     = (Raise (OtherException "DPY-1001"),
        [processing_line "events"; Execute schema_query []]).
Proof.
  split; [|split].
  - apply (proj1 (@process_table_schema_failure
                    (Scenario.world_with (Return None) (Return Scenario.columns))
                    "events" "parquet_output" "events.parquet" 22 0 [] eq_refl)).
    reflexivity.
  - apply (proj1 (proj2 (@process_table_schema_failure
                    (Scenario.world_with (Raise (OracleDatabaseError "ORA-03114"))
                       (Return Scenario.columns))
                    "events" "parquet_output" "events.parquet" 22 0 [] eq_refl))
             "ORA-03114").
    reflexivity.
  - apply (proj2 (proj2 (@process_table_schema_failure
                    (Scenario.world_with (Raise (OtherException "DPY-1001"))
                       (Return Scenario.columns))
                    "events" "parquet_output" "events.parquet" 22 0 [] eq_refl))
             (OtherException "DPY-1001")).
    + reflexivity.
    + discriminate.
Defined.

(** X5: an exception of the catalog query that is not
    [oracledb.DatabaseError] is not caught anywhere in the loop of [main]: it
    ends the loop at that table, and the tables after it are not processed. *)
Theorem catalog_exception_ends_the_loop :
  forall (w : world) (g : globals) (cfg : table_config) (rest : list table_config)
         (h : history) (name file o t : string) (es1 : list event) (e : exn),
    dict_get cfg "oracle_table_name" = Some name ->
    dict_get cfg "local_file_name" = Some file ->
    all (entry_fields cfg) = true ->
    resolve_owner w name (h ++ [processing_line name])%list
      = (Return (Some (o, t)), es1) ->
    all_tab_columns w ((h ++ [processing_line name]) ++ es1)%list
      (upper o) (upper t) = Raise e ->
    (forall msg, e <> OracleDatabaseError msg) ->
    for_each (table_iteration w g) (cfg :: rest) h
    = (Raise e, (processing_line name :: es1 ++ [metadata_call o t])%list).
Proof.
  intros w g cfg rest h name file o t es1 e Hn Hf Hall Hres Hcat He.
  assert (Hpt : process_table w name (BASE_LOCAL_OUTPUT_DIR g) file
                  (CAST_PRECISION g) (CAST_SCALE g) h
                = (Raise e, (processing_line name :: es1 ++ [metadata_call o t])%list)).
  { rewrite process_table_run. cbv zeta. rewrite Hres.
    rewrite get_table_column_metadata_run, !upper_idem, Hcat.
    replace (metadata_call (upper o) (upper t)) with (metadata_call o t)
      by (unfold metadata_call; now rewrite !upper_idem).
    destruct e as [msg|msg|msg|]; try reflexivity. now destruct (He msg). }
  rewrite for_each_cons, (@table_iteration_run w g cfg name file h Hn Hf Hall).
  cbv zeta. rewrite Hpt. reflexivity.
Qed.

Lemma catalog_exception_ends_the_loop_witness :
  for_each (table_iteration Cases.world_interface_error Scenario.globals_ok)
    (Scenario.sales_orders :: [Scenario.events_table]) []
  = (Raise (OtherException "DPY-1001: not connected"),
     (processing_line "SALES.ORDERS" :: [] ++ [metadata_call "SALES" "ORDERS"])%list).
Proof.
  apply (@catalog_exception_ends_the_loop Cases.world_interface_error
           Scenario.globals_ok Scenario.sales_orders [Scenario.events_table] []
           "SALES.ORDERS" "orders.parquet" "SALES" "ORDERS" []
           (OtherException "DPY-1001: not connected"));
    try reflexivity; discriminate.
Defined.

(** ** Extraction *)

Ltac count_events :=
  unfold count; cbn [filter is_read_sql is_to_parquet is_makedirs length
                     raises_Exception is_Exception fst snd].

Lemma extract_to_parquet_shape (w : world) (name dir file q : string) (h : history) :
  count is_read_sql (snd (extract_to_parquet w name dir file q h)) = 1
  /\ count is_to_parquet (snd (extract_to_parquet w name dir file q h)) <= 1
  /\ count is_makedirs (snd (extract_to_parquet w name dir file q h)) <= 1
  /\ raises_Exception (fst (extract_to_parquet w name dir file q h)) = false
  /\ (forall path,
        fst (extract_to_parquet w name dir file q h) = Return (Some path) ->
        count is_to_parquet (snd (extract_to_parquet w name dir file q h)) = 1).
Proof.
  unfold extract_to_parquet. run_calls.
  destruct (read_sql_query w _ q) as [df|[]]; run_calls;
    try (count_events; repeat apply conj; try reflexivity; try lia; discriminate).
  destruct (path_exists w _ dir); run_calls.
  - destruct (to_parquet w _ (os_path_join dir file)) as [[]|[]]; run_calls;
      count_events; repeat apply conj; try reflexivity; try lia; discriminate.
  - destruct (makedirs w _ dir) as [[]|[]]; run_calls;
      try (count_events; repeat apply conj; try reflexivity; try lia; discriminate).
    destruct (to_parquet w _ (os_path_join dir file)) as [[]|[]]; run_calls;
      count_events; repeat apply conj; try reflexivity; try lia; discriminate.
Qed.

Lemma process_columns_shape (w : world) (name dir file o t : string)
  (md : list column) (p s : Z) (h : history) :
  count is_read_sql (snd (process_columns w name dir file o t md p s h)) <= 1
  /\ count is_to_parquet (snd (process_columns w name dir file o t md p s h))
     <= count is_read_sql (snd (process_columns w name dir file o t md p s h))
  /\ count is_makedirs (snd (process_columns w name dir file o t md p s h))
     <= count is_read_sql (snd (process_columns w name dir file o t md p s h))
  /\ raises_Exception (fst (process_columns w name dir file o t md p s h)) = false
  /\ (forall path,
        fst (process_columns w name dir file o t md p s h) = Return (Some path) ->
        count is_to_parquet (snd (process_columns w name dir file o t md p s h)) = 1).
Proof.
  unfold process_columns. destruct md as [|col md].
  - run_calls. count_events. repeat apply conj; try reflexivity; try lia; discriminate.
  - destruct (generate_select_query o t (col :: md) p s) as [q|].
    + rewrite bind_run. unfold print, call. cbn [fst snd app].
      destruct (extract_to_parquet_shape w name dir file q
                  (h ++ [Print ("  Column metadata retrieved for " ++ name ++ ".")])%list)
        as (H1 & H2 & H3 & H4 & H5).
      rewrite !count_cons. cbn [is_read_sql is_to_parquet is_makedirs plus].
      rewrite H1. repeat apply conj; try lia; assumption.
    + run_calls. count_events.
      repeat apply conj; try reflexivity; try lia; discriminate.
Qed.

(** X6: whatever the collaborators answer, [process_table] runs at most one
    extraction query, creates the directory and writes the file only after
    that query was run, and at most once each; when it returns a path, the
    path is [os.path.join(local_output_dir, local_file_name_cfg)] and the file
    was written once. *)
Theorem process_table_one_query_one_file :
  forall (w : world) (name dir file : string) (p s : Z) (h : history),
    count is_read_sql (events_of (process_table w name dir file p s) h) <= 1
    /\ count is_to_parquet (events_of (process_table w name dir file p s) h)
       <= count is_read_sql (events_of (process_table w name dir file p s) h)
    /\ count is_makedirs (events_of (process_table w name dir file p s) h)
       <= count is_read_sql (events_of (process_table w name dir file p s) h)
    /\ (forall path,
          result_of (process_table w name dir file p s) h = Return (Some path) ->
          path = os_path_join dir file
          /\ count is_to_parquet (events_of (process_table w name dir file p s) h) = 1
          /\ count is_read_sql (events_of (process_table w name dir file p s) h) = 1).
Proof.
  intros w name dir file p s h.
  assert (Hpath : forall path,
             result_of (process_table w name dir file p s) h = Return (Some path) ->
             path = os_path_join dir file).
  { intros path H. now apply process_table_some in H. }
  unfold result_of, events_of in *. rewrite process_table_run in *. cbv zeta in *.
  pose proof (@emits_count_zero _ is_read_sql (resolve_owner w name)
                (h ++ [processing_line name])%list
                (resolve_owner_emits w (fun ev => is_read_sql ev = false) name
                   (fun _ => eq_refl) eq_refl)) as R1.
  pose proof (@emits_count_zero _ is_to_parquet (resolve_owner w name)
                (h ++ [processing_line name])%list
                (resolve_owner_emits w (fun ev => is_to_parquet ev = false) name
                   (fun _ => eq_refl) eq_refl)) as R2.
  pose proof (@emits_count_zero _ is_makedirs (resolve_owner w name)
                (h ++ [processing_line name])%list
                (resolve_owner_emits w (fun ev => is_makedirs ev = false) name
                   (fun _ => eq_refl) eq_refl)) as R3.
  unfold events_of in R1, R2, R3.
  destruct (resolve_owner w name (h ++ [processing_line name])%list)
    as [[[[o t]|]|e] es1]; cbn [fst snd] in *;
    try (rewrite !count_cons, ?count_app, ?R1, ?R2, ?R3; cbn;
         repeat apply conj; try lia; intros path H; discriminate H).
  pose proof (@emits_count_zero _ is_read_sql
                (get_table_column_metadata w (upper o) (upper t))
                ((h ++ [processing_line name]) ++ es1)%list
                (get_table_column_metadata_emits w (fun ev => is_read_sql ev = false)
                   (upper o) (upper t) (fun _ => eq_refl) eq_refl)) as M1.
  pose proof (@emits_count_zero _ is_to_parquet
                (get_table_column_metadata w (upper o) (upper t))
                ((h ++ [processing_line name]) ++ es1)%list
                (get_table_column_metadata_emits w (fun ev => is_to_parquet ev = false)
                   (upper o) (upper t) (fun _ => eq_refl) eq_refl)) as M2.
  pose proof (@emits_count_zero _ is_makedirs
                (get_table_column_metadata w (upper o) (upper t))
                ((h ++ [processing_line name]) ++ es1)%list
                (get_table_column_metadata_emits w (fun ev => is_makedirs ev = false)
                   (upper o) (upper t) (fun _ => eq_refl) eq_refl)) as M3.
  unfold events_of in M1, M2, M3.
  destruct (get_table_column_metadata w (upper o) (upper t)
              ((h ++ [processing_line name]) ++ es1)%list) as [[md|e] es2];
    cbn [fst snd] in *.
  - destruct (process_columns_shape w name dir file (upper o) (upper t) md p s
                (((h ++ [processing_line name]) ++ es1) ++ es2)%list)
      as (H1 & H2 & H3 & _ & H5).
    rewrite !count_cons, !count_app, R1, R2, R3.
    rewrite M1, M2, M3.
    cbn [is_read_sql is_to_parquet is_makedirs processing_line plus].
    repeat apply conj; try lia.
    intros path H. specialize (H5 path H). split; [now apply Hpath|]. lia.
  - rewrite !count_cons, !count_app, R1, R2, R3.
    rewrite M1, M2, M3.
    cbn. repeat apply conj; try lia. intros path H; discriminate H.
Qed.

Lemma process_table_one_query_one_file_witness :
  result_of (process_table Scenario.world_ok "SALES.ORDERS" "parquet_output"
               "orders.parquet" 22 0) []
    = Return (Some (os_path_join "parquet_output" "orders.parquet"))
  /\ count is_to_parquet
       (events_of (process_table Scenario.world_ok "SALES.ORDERS" "parquet_output"
                     "orders.parquet" 22 0) []) = 1
  /\ count is_read_sql
       (events_of (process_table Scenario.world_ok "SALES.ORDERS" "parquet_output"
                     "orders.parquet" 22 0) []) = 1.
Proof.
  split; [reflexivity|].
  apply (proj2 (proj2 (proj2 (@process_table_one_query_one_file Scenario.world_ok
                  "SALES.ORDERS" "parquet_output" "orders.parquet" 22 0 [])))
           "parquet_output/orders.parquet").
  reflexivity.
Defined.

Lemma process_table_count_zero (w : world) (q : event -> bool)
  (name dir file : string) (p s : Z) (h : history) :
  (forall l, q (Print l) = false) -> (forall sql b, q (Execute sql b) = false) ->
  (forall o t md hh, count q (snd (process_columns w name dir file o t md p s hh)) = 0) ->
  count q (events_of (process_table w name dir file p s) h) = 0.
Proof.
  intros HP HX HC. unfold events_of. rewrite process_table_run. cbv zeta.
  pose proof (@emits_count_zero _ q (resolve_owner w name)
                (h ++ [processing_line name])%list
                (resolve_owner_emits w (fun ev => q ev = false) name HP (HX _ _))) as R.
  unfold events_of in R.
  destruct (resolve_owner w name (h ++ [processing_line name])%list)
    as [[[[o t]|]|e] es1]; cbn [fst snd] in *;
    try (rewrite count_cons, ?count_app, R; unfold processing_line; now rewrite HP).
  pose proof (@emits_count_zero _ q
                (get_table_column_metadata w (upper o) (upper t))
                ((h ++ [processing_line name]) ++ es1)%list
                (get_table_column_metadata_emits w (fun ev => q ev = false)
                   (upper o) (upper t) HP (HX _ _))) as M.
  unfold events_of in M.
  destruct (get_table_column_metadata w (upper o) (upper t)
              ((h ++ [processing_line name]) ++ es1)%list) as [[md|e] es2];
    cbn [fst snd] in *; rewrite count_cons, !count_app, R, M, ?HC;
    unfold processing_line; now rewrite HP.
Qed.

(** X7: when pandas cannot run the extraction query (it raises an
    [Exception], whatever the query), [process_table] creates no directory,
    writes no file and never returns a path. *)
Theorem query_failure_leaves_no_file :
  forall (w : world) (name dir file : string) (p s : Z) (h : history),
    (forall h' q, raises_Exception (read_sql_query w h' q) = true) ->
    count is_makedirs (events_of (process_table w name dir file p s) h) = 0
    /\ count is_to_parquet (events_of (process_table w name dir file p s) h) = 0
    /\ (forall path,
          result_of (process_table w name dir file p s) h <> Return (Some path)).
Proof.
  intros w name dir file p s h Hfail.
  assert (Hcols : forall o t md hh,
             count is_makedirs (snd (process_columns w name dir file o t md p s hh)) = 0
             /\ count is_to_parquet
                  (snd (process_columns w name dir file o t md p s hh)) = 0).
  { intros o t md hh. unfold process_columns. destruct md as [|col md]; [now split|].
    destruct (generate_select_query o t (col :: md) p s) as [q|]; [|now split].
    unfold extract_to_parquet. run_calls.
    specialize (Hfail ((hh ++ [Print ("  Column metadata retrieved for " ++ name ++ ".")])
                         ++ [Print ("  Executing query and fetching data for "
                                    ++ name ++ "...")])%list q).
    destruct (read_sql_query w _ q) as [df|[]]; try discriminate Hfail;
      run_calls; now split. }
  assert (Hw : count is_to_parquet (events_of (process_table w name dir file p s) h) = 0).
  { apply process_table_count_zero; try reflexivity. intros. apply Hcols. }
  repeat apply conj.
  - apply process_table_count_zero; try reflexivity. intros. apply Hcols.
  - exact Hw.
  - intros path H. apply process_table_some in H.
    destruct H as (_ & es0 & Hes). rewrite Hes, count_app in Hw.
    unfold count at 2 in Hw. cbn in Hw. lia.
Qed.

Lemma query_failure_leaves_no_file_witness :
  count is_makedirs
    (events_of (process_table Cases.world_query_fails "SALES.ORDERS" "parquet_output"
                  "orders.parquet" 22 0) []) = 0
  /\ count is_to_parquet
       (events_of (process_table Cases.world_query_fails "SALES.ORDERS" "parquet_output"
                     "orders.parquet" 22 0) []) = 0
  /\ (forall path,
        result_of (process_table Cases.world_query_fails "SALES.ORDERS" "parquet_output"
                     "orders.parquet" 22 0) [] <> Return (Some path)).
Proof.
  apply (@query_failure_leaves_no_file Cases.world_query_fails "SALES.ORDERS"
           "parquet_output" "orders.parquet" 22 0 []).
  intros h' q. reflexivity.
Defined.

(** X8: the directory is created only when [os.path.exists] says it is not
    there: if it is always reported present, [process_table] never calls
    [os.makedirs]. *)
Theorem existing_directory_not_created :
  forall (w : world) (name dir file : string) (p s : Z) (h : history),
    (forall h', path_exists w h' dir = true) ->
    count is_makedirs (events_of (process_table w name dir file p s) h) = 0.
Proof.
  intros w name dir file p s h Hdir.
  apply process_table_count_zero; try reflexivity.
  intros o t md hh. unfold process_columns. destruct md as [|col md]; [reflexivity|].
  destruct (generate_select_query o t (col :: md) p s) as [q|]; [|reflexivity].
  unfold extract_to_parquet. run_calls.
  destruct (read_sql_query w _ q) as [df|[]]; run_calls; try reflexivity.
  rewrite Hdir. run_calls.
  destruct (to_parquet w _ (os_path_join dir file)) as [[]|[]]; reflexivity.
Qed.

Lemma existing_directory_not_created_witness :
  count is_makedirs
    (events_of (process_table Cases.world_dir_exists "SALES.ORDERS" "parquet_output"
                  "orders.parquet" 22 0) []) = 0.
Proof.
  apply (@existing_directory_not_created Cases.world_dir_exists "SALES.ORDERS"
           "parquet_output" "orders.parquet" 22 0 []).
  intros h'. reflexivity.
Defined.

Lemma resolve_owner_raises (w : world) (name : string) (h : history) (e : exn) :
  fst (resolve_owner w name h) = Raise e ->
  current_schema w h = Raise e /\ forall msg, e <> OracleDatabaseError msg.
Proof.
  destruct (contains_char "." name) eqn:Hdot.
  - destruct (contains_char_split1 "." name Hdot) as (a & b & _ & Hname & Hno).
    assert (Hd : resolve_owner w name h = (Return (Some (a, b)), []))
      by (rewrite Hname; apply (@resolve_owner_dotted w a b h Hno)).
    rewrite Hd. discriminate.
  - rewrite (resolve_owner_undotted w name h Hdot).
    destruct (current_schema w h) as [[owner|]|[msg|msg|msg|]]; cbn [fst];
      intros H; try discriminate H; injection H as <-; split; try reflexivity;
      intros msg'; discriminate.
Qed.

(** X9: an exception that leaves [process_table] was raised by the
    session-context query or by the catalog query, and is not an
    [oracledb.DatabaseError]: no [Exception] raised by the extraction query,
    by the creation of the directory or by the writing of the file gets out. *)
Theorem process_table_exceptions_come_from_catalog :
  forall (w : world) (name dir file : string) (p s : Z) (h : history) (e : exn),
    result_of (process_table w name dir file p s) h = Raise e ->
    is_Exception e = true ->
    ((exists h', current_schema w h' = Raise e)
     \/ (exists h' o t, all_tab_columns w h' o t = Raise e))
    /\ (forall msg, e <> OracleDatabaseError msg).
Proof.
  intros w name dir file p s h e. unfold result_of.
  rewrite process_table_run. cbv zeta.
  pose proof (@resolve_owner_raises w name (h ++ [processing_line name])%list) as Hr.
  destruct (resolve_owner w name (h ++ [processing_line name])%list)
    as [[[[o t]|]|e1] es1]; cbn [fst snd] in *; try discriminate.
  - rewrite get_table_column_metadata_run.
    destruct (all_tab_columns w ((h ++ [processing_line name]) ++ es1)%list
                (upper (upper o)) (upper (upper t))) as [md|e2] eqn:Hcat.
    + cbn [fst]. intros H He.
      pose proof (process_columns_shape w name dir file (upper o) (upper t) md p s
                    (((h ++ [processing_line name]) ++ es1)
                       ++ [metadata_call (upper o) (upper t)])%list)
        as (_ & _ & _ & Hno & _).
      rewrite H in Hno. cbn [raises_Exception] in Hno. congruence.
    + destruct e2 as [msg|msg|msg|]; cbn [fst].
      * rewrite process_columns_empty. discriminate.
      * intros H _. injection H as <-. split; [right; eauto | discriminate].
      * intros H _. injection H as <-. split; [right; eauto | discriminate].
      * intros H _. injection H as <-. split; [right; eauto | discriminate].
  - intros H _. injection H as <-.
    destruct (Hr e1 eq_refl) as [Hs Hn]. split; [left; eauto | exact Hn].
Qed.

Lemma process_table_exceptions_come_from_catalog_witness :
  ((exists h', current_schema Cases.world_interface_error h'
               = Raise (OtherException "DPY-1001: not connected"))
   \/ (exists h' o t, all_tab_columns Cases.world_interface_error h' o t
                      = Raise (OtherException "DPY-1001: not connected")))
  /\ (forall msg, OtherException "DPY-1001: not connected" <> OracleDatabaseError msg).
Proof.
  apply (@process_table_exceptions_come_from_catalog Cases.world_interface_error
           "SALES.ORDERS" "parquet_output" "orders.parquet" 22 0 []
           (OtherException "DPY-1001: not connected")); reflexivity.
Defined.

(** ** Upload *)

(** X10: [upload_file_to_datalake] catches every [Exception] of the upload
    itself (it prints the error and the attempted path, and returns), but not
    a failure of its imports, which are outside its [try]: that one is raised
    to the caller before any upload call. *)
Theorem upload_errors_are_caught_but_not_import_errors :
  forall (w : world)
         (tenant_id client_id client_secret workspace_id lakehouse_id
          local_file_path dest_folder_path dest_file_name : option string)
         (h : history) (e : exn),
    (azure_import w h = Return tt ->
     onelake_upload w (h ++ [AzureImport])%list
       "https://onelake.dfs.fabric.microsoft.com"
       tenant_id client_id client_secret workspace_id
       (fmt lakehouse_id ++ "/Files/" ++ fmt dest_folder_path)
       dest_file_name local_file_path = Raise e ->
     is_Exception e = true ->
     upload_file_to_datalake w tenant_id client_id client_secret workspace_id
       lakehouse_id local_file_path dest_folder_path dest_file_name h
     = (Return tt,
        [AzureImport;
         OneLakeUpload "https://onelake.dfs.fabric.microsoft.com"
           tenant_id client_id client_secret workspace_id
           (fmt lakehouse_id ++ "/Files/" ++ fmt dest_folder_path)
           dest_file_name local_file_path;
         Print ("  ERROR uploading file '" ++ fmt local_file_path
                ++ "' to Lakehouse: " ++ exn_str e);
         Print ("  Attempted Lakehouse path: Files/" ++ fmt dest_folder_path
                ++ "/" ++ fmt dest_file_name)]))
    /\ (azure_import w h = Raise e ->
        upload_file_to_datalake w tenant_id client_id client_secret workspace_id
          lakehouse_id local_file_path dest_folder_path dest_file_name h
        = (Raise e, [AzureImport])).
Proof.
  intros w t c sec ws lh path folder dest h e. split.
  - intros Himp Hup He. unfold upload_file_to_datalake. run_calls.
    rewrite Himp. run_calls.
    change ("https://" ++ "onelake" ++ ".dfs.fabric.microsoft.com")
      with "https://onelake.dfs.fabric.microsoft.com".
    change (fmt lh ++ "/" ++ "Files/" ++ fmt folder)
      with (fmt lh ++ "/Files/" ++ fmt folder).
    rewrite Hup. destruct e; try discriminate He; reflexivity.
  - intros Himp. unfold upload_file_to_datalake. run_calls. now rewrite Himp.
Qed.

Lemma upload_errors_are_caught_but_not_import_errors_witness :
  upload_file_to_datalake Cases.world_upload_fails (Some "tenant") (Some "client")
    (Some "s3cret") (Some "ws-1") (Some "lh-1") (Some "parquet_output/orders.parquet")
    (Some "sales") (Some "orders.parquet") []
  = (Return tt,
     [AzureImport;
      OneLakeUpload "https://onelake.dfs.fabric.microsoft.com"
        (Some "tenant") (Some "client") (Some "s3cret") (Some "ws-1")
        (fmt (Some "lh-1") ++ "/Files/" ++ fmt (Some "sales"))
        (Some "orders.parquet") (Some "parquet_output/orders.parquet");
      Print ("  ERROR uploading file '" ++ fmt (Some "parquet_output/orders.parquet")
             ++ "' to Lakehouse: " ++ exn_str (OtherException "AuthorizationFailure"));
      Print ("  Attempted Lakehouse path: Files/" ++ fmt (Some "sales")
             ++ "/" ++ fmt (Some "orders.parquet"))])
  /\ upload_file_to_datalake Cases.world_no_azure (Some "tenant") (Some "client")
       (Some "s3cret") (Some "ws-1") (Some "lh-1") (Some "parquet_output/orders.parquet")
       (Some "sales") (Some "orders.parquet") []
     = (Raise (OtherException "No module named 'azure'"), [AzureImport]).
Proof.
  split.
  - apply (proj1 (@upload_errors_are_caught_but_not_import_errors
                    Cases.world_upload_fails (Some "tenant") (Some "client")
                    (Some "s3cret") (Some "ws-1") (Some "lh-1")
                    (Some "parquet_output/orders.parquet") (Some "sales")
                    (Some "orders.parquet") []
                    (OtherException "AuthorizationFailure"))); reflexivity.
  - apply (proj2 (@upload_errors_are_caught_but_not_import_errors
                    Cases.world_no_azure (Some "tenant") (Some "client")
                    (Some "s3cret") (Some "ws-1") (Some "lh-1")
                    (Some "parquet_output/orders.parquet") (Some "sales")
                    (Some "orders.parquet") []
                    (OtherException "No module named 'azure'"))); reflexivity.
Defined.

(** X11: when the credentials are complete, the local file was written and
    the azure imports succeed, the turn of the loop makes one upload call: for
    the very file [process_table] wrote, to the directory
    [<lakehouse_id>/Files/<lakehouse_dest_folder_path>] of the workspace,
    under the configured file name; and the turn raises no [Exception]. *)
Theorem written_file_is_uploaded :
  forall (w : world) (g : globals) (cfg : table_config) (h : history) (path : string),
    FABRIC_CONFIG_COMPLETE g = true ->
    local_file_written w g cfg h path ->
    (forall h', azure_import w h' = Return tt) ->
    In (OneLakeUpload "https://onelake.dfs.fabric.microsoft.com"
          (FABRIC_TENANT_ID g) (FABRIC_CLIENT_ID g) (FABRIC_CLIENT_SECRET g)
          (FABRIC_WORKSPACE_ID g)
          (fmt (FABRIC_LAKEHOUSE_ID g) ++ "/Files/"
             ++ fmt (dict_get cfg "lakehouse_dest_folder_path"))
          (dict_get cfg "lakehouse_dest_file_name") (Some path))
       (events_of (table_iteration w g cfg) h)
    /\ count is_onelake_upload (events_of (table_iteration w g cfg) h) = 1
    /\ raises_Exception (result_of (table_iteration w g cfg) h) = false.
Proof.
  intros w g cfg h path Hc (Hall & name & file & Hn & Hf & Hres) Himp.
  destruct (all_entry_fields cfg Hall) as (name' & file' & Hn' & Hf' & Hfile).
  assert (name' = name) by congruence. assert (file' = file) by congruence.
  subst name' file'. clear Hn' Hf'.
  pose proof (@process_table_some w name (BASE_LOCAL_OUTPUT_DIR g) file path
                (CAST_PRECISION g) (CAST_SCALE g) h Hres) as (Hpath & _).
  assert (Hne : path <> EmptyString)
    by (rewrite Hpath; now apply os_path_join_nonempty).
  pose proof (@emits_count_zero _ is_onelake_upload
                (process_table w name (BASE_LOCAL_OUTPUT_DIR g) file
                   (CAST_PRECISION g) (CAST_SCALE g)) h
                (@process_table_emits w (fun ev => is_onelake_upload ev = false)
                   name (BASE_LOCAL_OUTPUT_DIR g) file (CAST_PRECISION g) (CAST_SCALE g)
                   (fun _ => eq_refl) (fun _ _ => eq_refl) (fun _ => eq_refl)
                   eq_refl eq_refl eq_refl)) as Hzero.
  unfold result_of, events_of in *.
  rewrite (@table_iteration_run w g cfg name file h Hn Hf Hall). cbv zeta.
  destruct (process_table w name (BASE_LOCAL_OUTPUT_DIR g) file
              (CAST_PRECISION g) (CAST_SCALE g) h) as [r es].
  cbn [fst snd] in *. subst r.
  unfold upload_step. rewrite Hc.
  destruct path as [|ch path']; [congruence|]. cbn [truthy andb].
  unfold upload_file_to_datalake. run_calls. rewrite Himp. run_calls.
  change ("https://" ++ "onelake" ++ ".dfs.fabric.microsoft.com")
    with "https://onelake.dfs.fabric.microsoft.com".
  change (fmt (FABRIC_LAKEHOUSE_ID g) ++ "/" ++ "Files/"
            ++ fmt (dict_get cfg "lakehouse_dest_folder_path"))
    with (fmt (FABRIC_LAKEHOUSE_ID g) ++ "/Files/"
            ++ fmt (dict_get cfg "lakehouse_dest_folder_path")).
  destruct (onelake_upload w _ _ _ _ _ _ _ _ _) as [[]|[]]; run_calls;
    (split; [apply in_or_app; right; cbn [In]; auto|]);
    (split; [rewrite count_app, Hzero; reflexivity | reflexivity]).
Qed.

Lemma written_file_is_uploaded_witness :
  In (OneLakeUpload "https://onelake.dfs.fabric.microsoft.com"
        (FABRIC_TENANT_ID Scenario.globals_ok) (FABRIC_CLIENT_ID Scenario.globals_ok)
        (FABRIC_CLIENT_SECRET Scenario.globals_ok)
        (FABRIC_WORKSPACE_ID Scenario.globals_ok)
        (fmt (FABRIC_LAKEHOUSE_ID Scenario.globals_ok) ++ "/Files/"
           ++ fmt (dict_get Scenario.sales_orders "lakehouse_dest_folder_path"))
        (dict_get Scenario.sales_orders "lakehouse_dest_file_name")
        (Some "parquet_output/orders.parquet"))
     (events_of (table_iteration Cases.world_upload_fails Scenario.globals_ok
                   Scenario.sales_orders) [])
  /\ count is_onelake_upload
       (events_of (table_iteration Cases.world_upload_fails Scenario.globals_ok
                     Scenario.sales_orders) []) = 1
  /\ raises_Exception
       (result_of (table_iteration Cases.world_upload_fails Scenario.globals_ok
                     Scenario.sales_orders) []) = false.
Proof.
  apply (@written_file_is_uploaded Cases.world_upload_fails Scenario.globals_ok
           Scenario.sales_orders [] "parquet_output/orders.parquet").
  - reflexivity.
  - split; [reflexivity|].
    exists "SALES.ORDERS", "orders.parquet". split; [reflexivity|].
    split; reflexivity.
  - intros h'. reflexivity.
Defined.

(** X12: a table entry in which one of the four fields is absent or empty is
    skipped with one warning line: nothing is queried, written or uploaded for
    it, and the loop goes on with the entries after it. *)
Theorem incomplete_entry_is_skipped :
  forall (w : world) (g : globals) (cfg : table_config) (rest : list table_config)
         (h : history),
    (exists v, In v (entry_fields cfg) /\ (v = None \/ v = Some "")) ->
    table_iteration w g cfg h
    = (Return tt,
       [Print ("WARNING: Skipping table configuration due to missing fields: "
               ++ repr_dict cfg)])
    /\ for_each (table_iteration w g) (cfg :: rest) h
       = (result_of (for_each (table_iteration w g) rest)
            (h ++ [Print ("WARNING: Skipping table configuration due to missing fields: "
                          ++ repr_dict cfg)])%list,
          Print ("WARNING: Skipping table configuration due to missing fields: "
                 ++ repr_dict cfg)
          :: events_of (for_each (table_iteration w g) rest)
               (h ++ [Print ("WARNING: Skipping table configuration due to missing fields: "
                             ++ repr_dict cfg)])%list).
Proof.
  intros w g cfg rest h Hmiss. apply empty_or_absent_not_all in Hmiss.
  assert (Hit : table_iteration w g cfg h
                = (Return tt,
                   [Print ("WARNING: Skipping table configuration due to missing fields: "
                           ++ repr_dict cfg)])).
  { unfold table_iteration. fold (entry_fields cfg). now rewrite Hmiss. }
  split; [exact Hit|]. rewrite for_each_cons, Hit. reflexivity.
Qed.

Lemma incomplete_entry_is_skipped_witness :
  table_iteration Scenario.world_ok Scenario.globals_ok Cases.entry_without_file []
  = (Return tt,
     [Print ("WARNING: Skipping table configuration due to missing fields: "
             ++ repr_dict Cases.entry_without_file)])
  /\ for_each (table_iteration Scenario.world_ok Scenario.globals_ok)
       (Cases.entry_without_file :: [Scenario.events_table]) []
     = (result_of (for_each (table_iteration Scenario.world_ok Scenario.globals_ok)
                     [Scenario.events_table])
          ([] ++ [Print ("WARNING: Skipping table configuration due to missing fields: "
                         ++ repr_dict Cases.entry_without_file)])%list,
        Print ("WARNING: Skipping table configuration due to missing fields: "
               ++ repr_dict Cases.entry_without_file)
        :: events_of (for_each (table_iteration Scenario.world_ok Scenario.globals_ok)
                        [Scenario.events_table])
             ([] ++ [Print ("WARNING: Skipping table configuration due to missing fields: "
                            ++ repr_dict Cases.entry_without_file)])%list).
Proof.
  apply (@incomplete_entry_is_skipped Scenario.world_ok Scenario.globals_ok
           Cases.entry_without_file [Scenario.events_table] []).
  exists None. split; [right; left; reflexivity | left; reflexivity].
Defined.

(** ** The connection *)

Lemma table_iteration_no_close (w : world) (g : globals) (cfg : table_config) :
  emits (fun ev => is_close ev = false) (table_iteration w g cfg).
Proof.
  unfold table_iteration, upload_step, upload_file_to_datalake. emits_auto.
  apply (@process_table_emits w (fun ev => is_close ev = false)); reflexivity.
Qed.

Lemma get_oracle_connection_run (w : world) (user password dsn : option string)
  (h : history) :
  get_oracle_connection w user password dsn h =
  match connect w h user password dsn with
  | Return _ =>
      (Return (Some tt),
       [Connect user password dsn;
        Print ("Successfully connected to Oracle as user '" ++ fmt user
               ++ "' with DSN '" ++ fmt dsn ++ "'.")])
  | Raise (OracleDatabaseError msg) =>
      (Return None,
       [Connect user password dsn; Print ("Error connecting to Oracle: " ++ msg)])
  | Raise e => (Raise e, [Connect user password dsn])
  end.
Proof.
  unfold get_oracle_connection. run_calls.
  destruct (connect w h user password dsn) as [[]|[]]; reflexivity.
Qed.

(** X13: when [oracledb.connect] raises [oracledb.DatabaseError], [main]
    prints the error, processes no table whatever the configuration lists,
    does not call [close], and returns normally after its closing line. *)
Theorem connection_failure_processes_nothing :
  forall (w : world) (g : globals) (h : history) (msg : string),
    connect w
      (h ++ [Print "--- Starting Oracle to Parquet Script with Lakehouse Upload ---"])%list
      (DB_USER g) (DB_PASSWORD g) (DB_DSN g) = Raise (OracleDatabaseError msg) ->
    main w g h
    = (Return tt,
       [Print "--- Starting Oracle to Parquet Script with Lakehouse Upload ---";
        Connect (DB_USER g) (DB_PASSWORD g) (DB_DSN g);
        Print ("Error connecting to Oracle: " ++ msg);
        Print "Could not establish Oracle connection. Exiting.";
        Print (nl ++ "--- Script Finished ---")]).
Proof.
  intros w g h msg Hc. unfold main.
  rewrite bind_run. unfold print at 1, call at 1. cbn [fst snd].
  rewrite bind_run, get_oracle_connection_run, Hc. reflexivity.
Qed.

Lemma connection_failure_processes_nothing_witness :
  main Cases.world_no_connection Scenario.globals_ok []
  = (Return tt,
     [Print "--- Starting Oracle to Parquet Script with Lakehouse Upload ---";
      Connect (DB_USER Scenario.globals_ok) (DB_PASSWORD Scenario.globals_ok)
        (DB_DSN Scenario.globals_ok);
      Print ("Error connecting to Oracle: " ++ "ORA-12541");
      Print "Could not establish Oracle connection. Exiting.";
      Print (nl ++ "--- Script Finished ---")]).
Proof.
  apply (@connection_failure_processes_nothing Cases.world_no_connection
           Scenario.globals_ok [] "ORA-12541").
  reflexivity.
Defined.

(** X14: once the connection is made, [main] closes it exactly once, whatever
    happens to the tables (an exception that ends the loop included): the
    closing line and the call to [close] come after every event of the loop,
    followed at most by the final line. *)
Theorem connection_closed_exactly_once :
  forall (w : world) (g : globals) (h : history),
    connect w
      (h ++ [Print "--- Starting Oracle to Parquet Script with Lakehouse Upload ---"])%list
      (DB_USER g) (DB_PASSWORD g) (DB_DSN g) = Return tt ->
    count is_close (events_of (main w g) h) = 1
    /\ exists es tail,
         events_of (main w g) h
         = (es ++ [Print (nl ++ "Closing Oracle connection."); CloseConnection]
               ++ tail)%list
         /\ count is_close es = 0
         /\ (tail = [] \/ tail = [Print (nl ++ "--- Script Finished ---")]).
Proof.
  intros w g h Hc.
  set (body := match TABLES_CONFIG_LIST g with
               | [] => print "No tables to process. Check 'tables_to_process' in config.json."
               | entry :: entries =>
                   print ("Base local output directory: " ++ BASE_LOCAL_OUTPUT_DIR g) ;;
                   print ("Casting NUMBER types to: NUMBER(" ++ str_of_Z (CAST_PRECISION g)
                          ++ "," ++ str_of_Z (CAST_SCALE g) ++ ")") ;;
                   for_each (table_iteration w g) (entry :: entries)
               end).
  assert (Hbody : emits (fun ev => is_close ev = false) body).
  { unfold body. destruct (TABLES_CONFIG_LIST g) as [|entry entries].
    - emits_auto.
    - apply emits_bind; [emits_auto | intros _].
      apply emits_bind; [emits_auto | intros _].
      apply emits_for_each. intros x. apply table_iteration_no_close. }
  assert (Hshape : exists es tail,
             events_of (main w g) h
             = (es ++ [Print (nl ++ "Closing Oracle connection."); CloseConnection]
                   ++ tail)%list
             /\ count is_close es = 0
             /\ (tail = [] \/ tail = [Print (nl ++ "--- Script Finished ---")])).
  { unfold events_of, main.
    rewrite bind_run. unfold print at 1, call at 1. cbn [fst snd].
    rewrite bind_run, get_oracle_connection_run, Hc. cbn [fst snd].
    rewrite bind_run. unfold try_finally.
    fold body.
    set (h2 := ((h ++ [Print "--- Starting Oracle to Parquet Script with Lakehouse Upload ---"])
                  ++ [Connect (DB_USER g) (DB_PASSWORD g) (DB_DSN g);
                      Print ("Successfully connected to Oracle as user '"
                             ++ fmt (DB_USER g) ++ "' with DSN '" ++ fmt (DB_DSN g)
                             ++ "'.")])%list).
    pose proof (@emits_count_zero _ is_close body h2 Hbody) as Hz.
    unfold events_of in Hz.
    destruct (body h2) as [r es]. cbn [snd] in Hz.
    run_calls.
    destruct (close w _) as [[]|e]; destruct r as [[]|e']; run_calls;
      eexists (_ :: _ :: _ :: es)%list, _;
      (split; [cbn [app]; rewrite <- ?app_assoc; cbn [app]; reflexivity|]);
      (split; [rewrite !count_cons; cbn [is_close plus]; exact Hz | auto]). }
  split; [|exact Hshape].
  destruct Hshape as (es & tail & -> & Hes & Htail).
  rewrite !count_app, Hes. destruct Htail as [-> | ->]; reflexivity.
Qed.

Lemma connection_closed_exactly_once_witness :
  count is_close (events_of (main Cases.world_interface_error Scenario.globals_ok) []) = 1
  /\ exists es tail,
       events_of (main Cases.world_interface_error Scenario.globals_ok) []
       = (es ++ [Print (nl ++ "Closing Oracle connection."); CloseConnection]
             ++ tail)%list
       /\ count is_close es = 0
       /\ (tail = [] \/ tail = [Print (nl ++ "--- Script Finished ---")]).
Proof.
  apply (@connection_closed_exactly_once Cases.world_interface_error
           Scenario.globals_ok []).
  reflexivity.
Defined.

(** X15: with no table configured, and a connection that opens and closes,
    [main] connects, reports that there is nothing to process, closes the
    connection and ends: no query, no file, no upload. *)
Theorem no_tables_only_connects :
  forall (w : world) (g : globals) (h : history),
    TABLES_CONFIG_LIST g = [] ->
    (forall h', connect w h' (DB_USER g) (DB_PASSWORD g) (DB_DSN g) = Return tt) ->
    (forall h', close w h' = Return tt) ->
    main w g h
    = (Return tt,
       [Print "--- Starting Oracle to Parquet Script with Lakehouse Upload ---";
        Connect (DB_USER g) (DB_PASSWORD g) (DB_DSN g);
        Print ("Successfully connected to Oracle as user '" ++ fmt (DB_USER g)
               ++ "' with DSN '" ++ fmt (DB_DSN g) ++ "'.");
        Print "No tables to process. Check 'tables_to_process' in config.json.";
        Print (nl ++ "Closing Oracle connection.");
        CloseConnection;
        Print (nl ++ "--- Script Finished ---")]).
Proof.
  intros w g h Ht Hc Hcl. unfold main. rewrite Ht.
  rewrite bind_run. unfold print at 1, call at 1. cbn [fst snd].
  rewrite bind_run, get_oracle_connection_run, Hc. cbn [fst snd].
  run_calls. rewrite Hcl. reflexivity.
Qed.

Lemma no_tables_only_connects_witness :
  main Scenario.world_ok Cases.globals_no_tables []
  = (Return tt,
     [Print "--- Starting Oracle to Parquet Script with Lakehouse Upload ---";
      Connect (DB_USER Cases.globals_no_tables) (DB_PASSWORD Cases.globals_no_tables)
        (DB_DSN Cases.globals_no_tables);
      Print ("Successfully connected to Oracle as user '"
             ++ fmt (DB_USER Cases.globals_no_tables)
             ++ "' with DSN '" ++ fmt (DB_DSN Cases.globals_no_tables) ++ "'.");
      Print "No tables to process. Check 'tables_to_process' in config.json.";
      Print (nl ++ "Closing Oracle connection.");
      CloseConnection;
      Print (nl ++ "--- Script Finished ---")]).
Proof.
  apply (@no_tables_only_connects Scenario.world_ok Cases.globals_no_tables []);
    reflexivity.
Defined.

(** ** Start-up *)

(** X16: when [config.yaml] is missing, malformed, unreadable or empty, the
    run prints one line about the configuration and the line that it exits,
    and ends by [exit()]: the Oracle client is not initialised and nothing is
    connected, whatever the environment holds. *)
Theorem missing_configuration_exits_first :
  forall (w : world) (getenv : environ) (h : history),
    (forall config, safe_load w "config.yaml" <> YamlLoaded (Some config)) ->
    exists line,
      run_all w getenv h
      = (Raise SystemExit,
         [YamlSafeLoad "config.yaml"; Print line;
          Print "Exiting due to missing or invalid YAML configuration."]).
Proof.
  intros w getenv h Hbad. unfold run_all, load_yaml_config. run_calls.
  destruct (safe_load w "config.yaml") as [|msg|msg|[config|]]; run_calls;
    try (eexists; reflexivity).
  now destruct (Hbad config).
Qed.

Lemma missing_configuration_exits_first_witness :
  exists line,
    run_all Cases.world_no_config (Scenario.env_with (Some "scott") (Some "s3cret")) []
    = (Raise SystemExit,
       [YamlSafeLoad "config.yaml"; Print line;
        Print "Exiting due to missing or invalid YAML configuration."]).
Proof.
  apply (@missing_configuration_exits_first Cases.world_no_config
           (Scenario.env_with (Some "scott") (Some "s3cret")) []).
  intros config. discriminate.
Defined.

Lemma filter_none (q : event -> bool) (es : list event) :
  Forall (fun ev => q ev = false) es -> filter q es = [].
Proof.
  intros H. induction H as [|ev es Hev _ IH]; simpl; [reflexivity|].
  now rewrite Hev.
Qed.

Lemma main_emits (w : world) (g : globals) (P : event -> Prop) :
  (forall l, P (Print l)) -> (forall ev, is_startup ev = false -> P ev) ->
  emits P (main w g).
Proof.
  intros HP HE.
  unfold main, get_oracle_connection, table_iteration, upload_step,
    upload_file_to_datalake.
  emits_auto; auto.
  apply process_table_emits; auto.
Qed.

(** The library directory handed to [init_oracle_client]. *)
Lemma initialize_oracle_client_calls (w : world) (g : globals) (h : history) :
  filter is_init_client (snd (initialize_oracle_client w g h))
  = [InitOracleClient (if truthy (ORACLE_CLIENT_LIB_TO_USE g)
                       then ORACLE_CLIENT_LIB_TO_USE g else None)]
  /\ filter is_connect (snd (initialize_oracle_client w g h)) = []
  /\ ((exists e, is_Exception e = true
                 /\ init_oracle_client w (if truthy (ORACLE_CLIENT_LIB_TO_USE g)
                                          then ORACLE_CLIENT_LIB_TO_USE g else None)
                    = Raise e) ->
      fst (initialize_oracle_client w g h) = Raise SystemExit).
Proof.
  unfold initialize_oracle_client.
  destruct (truthy (ORACLE_CLIENT_LIB_TO_USE g)); run_calls.
  - destruct (init_oracle_client w (ORACLE_CLIENT_LIB_TO_USE g)) as [[]|[]];
      run_calls; repeat apply conj; try reflexivity;
      intros (e & He & Heq); try discriminate Heq;
      injection Heq as <-; discriminate He.
  - destruct (init_oracle_client w None) as [[]|[]];
      run_calls; repeat apply conj; try reflexivity;
      intros (e & He & Heq); try discriminate Heq;
      injection Heq as <-; discriminate He.
Qed.

Lemma load_yaml_config_emits (w : world) (P : event -> Prop) (config_path : string) :
  P (YamlSafeLoad config_path) -> (forall l, P (Print l)) ->
  emits P (load_yaml_config w config_path).
Proof. intros HY HP. unfold load_yaml_config. emits_auto; auto. Qed.

Lemma validate_configuration_emits (g : globals) (P : event -> Prop) :
  (forall l, P (Print l)) -> emits P (validate_configuration g).
Proof. intros HP. unfold validate_configuration. emits_auto; auto. Qed.

(** X17: when the Oracle client cannot be initialised (any [Exception]), the
    run ends by [exit()] without trying to connect, whether or not the Oracle
    credentials are set. *)
Theorem client_initialisation_failure_exits :
  forall (w : world) (getenv : environ) (h : history) (e : exn),
    (forall lib, init_oracle_client w lib = Raise e) ->
    is_Exception e = true ->
    result_of (run_all w getenv) h = Raise SystemExit
    /\ filter is_connect (events_of (run_all w getenv) h) = [].
Proof.
  intros w getenv h e Hinit He.
  unfold result_of, events_of, run_all. rewrite bind_run.
  pose proof (filter_none is_connect
                (@load_yaml_config_emits w (fun ev => is_connect ev = false)
                   "config.yaml" eq_refl (fun _ => eq_refl) h)) as F0.
  destruct (load_yaml_config_run w "config.yaml" h) as (es0 & Heq & _).
  rewrite Heq in *. cbn [fst snd] in *.
  destruct (match safe_load w "config.yaml" with
            | YamlLoaded config => config
            | _ => None
            end) as [config|].
  - cbv zeta. rewrite bind_run.
    destruct (initialize_oracle_client_calls w (read_globals getenv config)
                (h ++ es0)%list) as (_ & F1 & Hexit).
    specialize (Hexit (ex_intro _ e (conj He (Hinit _)))).
    destruct (initialize_oracle_client w (read_globals getenv config) (h ++ es0)%list)
      as [r es1]. cbn [fst snd] in *. subst r. cbn [fst snd].
    split; [reflexivity|]. now rewrite filter_app, F0, F1.
  - run_calls. split; [reflexivity|]. rewrite filter_app, F0. reflexivity.
Qed.

Lemma client_initialisation_failure_exits_witness :
  result_of (run_all Cases.world_no_client
               (Scenario.env_with (Some "scott") (Some "s3cret"))) []
    = Raise SystemExit
  /\ filter is_connect
       (events_of (run_all Cases.world_no_client
                     (Scenario.env_with (Some "scott") (Some "s3cret"))) []) = [].
Proof.
  apply (@client_initialisation_failure_exits Cases.world_no_client
           (Scenario.env_with (Some "scott") (Some "s3cret")) []
           (OtherException "DPI-1047")); reflexivity.
Defined.

(** X18: from the try block of lines 68-79 to the end of the run, whatever
    values the module-level assignments of lines 39-65 have produced,
    [init_oracle_client] is called exactly once: with
    [ORACLE_CLIENT_LIB_TO_USE] as directory when that is a non-empty string,
    without a directory otherwise. That name (line 53) holds the environment
    variable [ORACLE_CLIENT_LIB_DIR] when it is set and not empty, else the
    value read from [oracle_settings.thick_mode_lib_dir]. A run that does not
    reach line 68 (a configuration that is not loaded, or whose section is
    null and makes the assignments raise) is not one this property speaks
    of. *)
Theorem client_library_directory_precedence :
  forall (w : world) (g : globals) (h : history),
    filter is_init_client
      (events_of (initialize_oracle_client w g ;; validate_configuration g ;; main w g) h)
    = [InitOracleClient (if truthy (ORACLE_CLIENT_LIB_TO_USE g)
                         then ORACLE_CLIENT_LIB_TO_USE g else None)]
    /\ forall (getenv : environ) (config : app_config),
         ORACLE_CLIENT_LIB_TO_USE (read_globals getenv config)
         = (if truthy (getenv "ORACLE_CLIENT_LIB_DIR")
            then getenv "ORACLE_CLIENT_LIB_DIR"
            else thick_mode_lib_dir config).
Proof.
  intros w g h. split; [|reflexivity].
  unfold events_of. rewrite bind_run.
  destruct (initialize_oracle_client_calls w g h) as (F1 & _ & _).
  destruct (initialize_oracle_client w g h) as [[[]|e] es1]; cbn [fst snd] in *.
  2:{ exact F1. }
  rewrite bind_run.
  pose proof (filter_none is_init_client
                (@validate_configuration_emits g
                   (fun ev => is_init_client ev = false) (fun _ => eq_refl)
                   (h ++ es1)%list)) as F2.
  destruct (validate_configuration g (h ++ es1)%list) as [[[]|e] es2];
    cbn [fst snd] in *.
  2:{ now rewrite !filter_app, F1, F2. }
  pose proof (filter_none is_init_client
                (@main_emits w g
                   (fun ev => is_init_client ev = false) (fun _ => eq_refl)
                   (fun ev => match ev with
                              | InitOracleClient _ => fun H => False_ind _ (diff_true_false H)
                              | _ => fun _ => eq_refl
                              end)
                   ((h ++ es1) ++ es2)%list)) as F3.
  now rewrite !filter_app, F1, F2, F3.
Qed.

Lemma client_library_directory_precedence_witness :
  filter is_init_client
    (events_of (initialize_oracle_client Scenario.world_ok
                  (read_globals
                     (fun name => if String.eqb name "ORACLE_CLIENT_LIB_DIR"
                                  then Some "/opt/oracle/instantclient"
                                  else Scenario.env_with (Some "scott") None name)
                     Scenario.config) ;;
                validate_configuration
                  (read_globals
                     (fun name => if String.eqb name "ORACLE_CLIENT_LIB_DIR"
                                  then Some "/opt/oracle/instantclient"
                                  else Scenario.env_with (Some "scott") None name)
                     Scenario.config) ;;
                main Scenario.world_ok
                  (read_globals
                     (fun name => if String.eqb name "ORACLE_CLIENT_LIB_DIR"
                                  then Some "/opt/oracle/instantclient"
                                  else Scenario.env_with (Some "scott") None name)
                     Scenario.config)) [])
  = [InitOracleClient (Some "/opt/oracle/instantclient")].
Proof.
  apply (proj1 (@client_library_directory_precedence Scenario.world_ok
                  (read_globals
                     (fun name => if String.eqb name "ORACLE_CLIENT_LIB_DIR"
                                  then Some "/opt/oracle/instantclient"
                                  else Scenario.env_with (Some "scott") None name)
                     Scenario.config) [])).
Defined.
